(** * run_experiments.py: the experiment harness, embedded and verified

    The script under [src/experiments/run_experiments.py] is sequential glue:
    it loads a prompt, uploads four images, enumerates the 3-of-4 example
    subsets, builds few-shot and zero-shot conversations and calls a hosted
    model, writing two JSON files per successful call.

    The embedding keeps the script's names.  Python [str] values are Rocq
    strings (their UTF-8 bytes), [int] is [Z], [float] is the binary64
    [float] of the kernel.  The two libraries the script only calls, the
    [json] codec and the generation client, are parameters of the
    development: every theorem holds whatever they answer.

    The harness is given twice.  [Section Harness] has it on a disk that
    takes every write; [Module Disk] has it on a disk that can refuse a
    file or fail in the middle of one, a parameter as well.  The two agree
    when no write fails ([disk_script_sound]). *)

From Stdlib Require Import ZArith Ascii DecimalString DecimalPos DecimalZ Floats.
From stdpp Require Import base option list strings gmap.

(** ** Python strings *)

Module Py.

(** [chr(10)] and [chr(34)]: the two characters of the script's texts
    that a literal here cannot hold. *)
Definition nl : string := String "010"%char EmptyString.
Definition dq : string := String "034"%char EmptyString.

(** [str(n)] for an [int], which is also what an f-string field prints. *)
Definition str (n : Z) : string := NilZero.string_of_int (Z.to_int n).

(** [sep.join(parts)]. *)
Fixpoint join (sep : string) (parts : list string) : string :=
  match parts with
  | [] => ""
  | [p] => p
  | p :: ps => p +:+ sep +:+ join sep ps
  end.

(** [c * n] for a string [c]. *)
Fixpoint repeat (c : string) (n : nat) : string :=
  match n with
  | O => ""
  | S n => c +:+ repeat c n
  end.

(** [s.replace(old, new)] for a non-empty [old]: scan left to right, at
    each position where [old] starts emit [new] and skip the occurrence
    (so matches never overlap), otherwise keep the character.  [skip]
    counts the characters of the current occurrence still to drop. *)
Fixpoint replace_from (old new : string) (skip : nat) (s : string) : string :=
  match s with
  | EmptyString => EmptyString
  | String c s' =>
      match skip with
      | S k => replace_from old new k s'
      | O =>
          if String.prefix old s
          then new +:+ replace_from old new (Nat.pred (String.length old)) s'
          else String c (replace_from old new O s')
      end
  end.

(** With an empty [old], Python puts [new] before every character and
    at the end. *)
Fixpoint intersperse (new s : string) : string :=
  match s with
  | EmptyString => new
  | String c s' => new +:+ String c (intersperse new s')
  end.

Definition replace (old new s : string) : string :=
  match old with
  | EmptyString => intersperse new s
  | String _ _ => replace_from old new O s
  end.

(** Truthiness of an optional string: [None] and the empty string are
    false, everything else is true. *)
Definition truthy (s : option string) : bool :=
  match s with
  | Some (String _ _) => true
  | _ => false
  end.

(** [range(n)]. *)
Definition range (n : nat) : list nat := seq 0 n.

(** [list(set(range(n)) - set(ys))].  Small non-negative integers hash to
    themselves, and CPython lists a set by slot of its hash table: up to
    [n = 8], the size of the smallest table, that is increasing order,
    which is what this definition gives.  Beyond it a large element can
    come before a small one ([n = 9] and [ys = (0, 2, 3, 4, 5, 6, 7)] give
    [[8, 1]]): there the definition has the right elements, and what is
    proved of larger [n] holds of any order. *)
Definition range_minus (n : nat) (ys : list nat) : list nat :=
  filter (λ i, i ∉ ys) (range n).

End Py.

(** ** [itertools.combinations] *)

Module Itertools.

(** [combinations(pool, r)]: the [r]-length subsequences of [pool], in
    lexicographic order of the positions chosen. *)
Fixpoint combinations {A} (pool : list A) (r : nat) : list (list A) :=
  match pool, r with
  | _, O => [[]]
  | [], S _ => []
  | x :: xs, S r' => ((x ::.) <$> combinations xs r') ++ combinations xs r
  end.

End Itertools.

(** ** Exceptions and the effects of the script *)

(** An instance of Python's [Exception]: its class name and the text
    [str(e)] prints.  (Interpreter exits and keyboard interrupts, which
    are not [Exception]s, are outside the model.) *)
Record exn := Exn { exn_class : string; exn_text : string }.

Definition IndexError : exn := Exn "IndexError" "list index out of range".
Definition KeyError (k : string) : exn := Exn "KeyError" ("'" +:+ k +:+ "'").
Definition FileNotFoundError (p : string) : exn :=
  Exn "FileNotFoundError"
      ("[Errno 2] No such file or directory: '" +:+ p +:+ "'").

(** [l[i]] for a non-negative [i]. *)
Definition getitem {A} (l : list A) (i : nat) : exn + A :=
  match l !! i with
  | Some x => inr x
  | None => inl IndexError
  end.

(** [d[k]] for a dict with string keys. *)
Definition dict_getitem {A} (d : gmap string A) (k : string) : exn + A :=
  match d !! k with
  | Some x => inr x
  | None => inl (KeyError k)
  end.

(** ** JSON values and the conversation types *)

#[local] Set Warnings "-register-all".

(** What [json.load] and [json.loads] return; an object keeps its keys
    in insertion order, as a Python [dict] does. *)
Inductive json :=
  | JNull
  | JBool (b : bool)
  | JInt (n : Z)
  | JFloat (x : float)
  | JString (s : string)
  | JArray (items : list json)
  | JObject (fields : list (string * json)).

#[local] Set Warnings "register-all".

Record FileData := { mime_type : string; file_uri : string }.

Inductive Part :=
  | Part_file_data (file_data : FileData)
  | Part_text (text : string).

Record Content := { role : string; parts : list Part }.

Record ThinkingConfig := { thinking_budget : Z }.

Record GenerateContentConfig := {
  response_mime_type : string;
  temperature : float;
  thinking_config : option ThinkingConfig
}.

(** One call of [client.models.generate_content]. *)
Record GenerateRequest := {
  model : string;
  config : GenerateContentConfig;
  contents : list Content
}.

Record UsageMetadata := {
  candidates_token_count : Z;
  thoughts_token_count : Z;
  prompt_token_count : Z;
  total_token_count : Z
}.

(** Modelled from the spec: the reply type belongs to the client library,
    which is not in the repository.  The spec (section 6) has the
    generation call return "response text plus token-usage counters", the
    counters being "four integer token counts" (section 3); the text may
    be absent or empty, which line 138 tests by truthiness. *)
Record GenerateContentResponse := {
  response_text : option string;
  usage_metadata : UsageMetadata
}.

(** ** The world the script runs in *)

(** [data_dir]: the files under [DATA_DIR], by relative path (read only).
    [predictions], [metadata]: the entries of [PREDICTIONS_DIR] and
    [METADATA_DIR], by file name as the script gives it (two names that
    reach one file through a slash or a dot-dot are two entries).
    [stdout]: one string per [print], oldest first.  [requests]: the
    generation calls issued so far, oldest first. *)
Record World := {
  data_dir : gmap string string;
  predictions : gmap string string;
  metadata : gmap string string;
  stdout : list string;
  requests : list GenerateRequest
}.

(** A statement of the script: it changes the world and either raises or
    yields a value.  What was done before a [raise] stays done. *)
Definition M (A : Type) : Type := World → (exn + A) * World.

#[export] Instance M_ret : MRet M := λ A x w, (inr x, w).

#[export] Instance M_bind : MBind M := λ A B f m w,
  match m w with
  | (inr x, w') => f x w'
  | (inl e, w') => (inl e, w')
  end.

(** A pure computation that may raise. *)
Definition lift {A} (r : exn + A) : M A := λ w, (r, w).

(** [try: body except Exception as e: handler(e)]. *)
Definition try_except {A} (body : M A) (handler : exn → M A) : M A := λ w,
  match body w with
  | (inl e, w') => handler e w'
  | (inr x, w') => (inr x, w')
  end.

(** [for x in xs: body(x)]. *)
Fixpoint for_each {A} (xs : list A) (body : A → M unit) : M unit :=
  match xs with
  | [] => mret tt
  | x :: xs' => body x;; for_each xs' body
  end.

Definition print (line : string) : M unit := λ w,
  (inr tt,
   {| data_dir := data_dir w; predictions := predictions w;
      metadata := metadata w; stdout := stdout w ++ [line];
      requests := requests w |}).

(** [with open(DATA_DIR / path, "r") as f: f.read()]. *)
Definition read_data (path : string) : M string := λ w,
  match data_dir w !! path with
  | Some s => (inr s, w)
  | None => (inl (FileNotFoundError path), w)
  end.

(** [with open(PREDICTIONS_DIR / name, "w") as f: f.write(s)], on a disk
    that takes every write: lines 41-42 create both directories, and
    nothing stands in the way of creating or replacing the entry [name].
    The writes of a disk that can refuse are in [Disk] below. *)
Definition write_prediction (name s : string) : M unit := λ w,
  (inr tt,
   {| data_dir := data_dir w; predictions := <[name := s]> (predictions w);
      metadata := metadata w; stdout := stdout w;
      requests := requests w |}).

(** [with open(METADATA_DIR / name, "w") as f: f.write(s)], likewise. *)
Definition write_metadata (name s : string) : M unit := λ w,
  (inr tt,
   {| data_dir := data_dir w; predictions := predictions w;
      metadata := <[name := s]> (metadata w); stdout := stdout w;
      requests := requests w |}).

(** ** Configuration (lines 30-65) *)

Definition IMAGE_FILES : list string :=
  [ "NL-UtHUA_A376076_000033_l.jpg";
    "NL-UtHUA_A376076_000033_r.jpg";
    "NL-UtHUA_A376079_000005_l.jpg";
    "NL-UtHUA_A376079_000005_r.jpg" ].

Definition MODELS : list string := [ "models/gemini-2.5-flash-lite" ].

Definition THINKING_BUDGETS : list Z := [ 0; 2000 ]%Z.

(** ** Output naming (lines 91-105) *)

Definition get_model_short_name (model_name : string) : string :=
  Py.replace ":" "-" (Py.replace "models/" "" model_name).

Definition build_output_filename
    (image_name model_name strategy : string) (thinking_budget : Z)
    (suffix : string) : string :=
  let image_base := Py.replace ".jpg" "" image_name in
  let model_short := get_model_short_name model_name in
  let thinking_str := "thinking" +:+ Py.str thinking_budget in
  let parts := [image_base; model_short; strategy; thinking_str] in
  let filename := Py.join "__" parts +:+ suffix +:+ ".json" in
  filename.

(** ** Choosing the target (line 184) *)

(** [list(set(range(n)) - set(example_indices))[0]], [n] being
    [len(IMAGE_FILES)]. *)
Definition target_index (n : nat) (example_indices : list nat) : exn + nat :=
  getitem (Py.range_minus n example_indices) 0.

(** ** The harness proper *)

Section Harness.

(** The two codec entry points the script uses: [json.loads], which
    raises on malformed text, and [json.dumps(., indent=4)], which does
    not raise on what the script passes it, a parsed value or a dict of
    integers ([json.load] and [json.dump] are these applied to a file's
    text). *)
Variable json_loads : string → exn + json.
Variable json_dumps : json → string.

(** [client.files.upload] by local path under [DATA_DIR], and
    [client.models.generate_content]: what the service answers may depend
    on the calls made before. *)
Variable files_upload : string → exn + FileData.
Variable generate_content :
  list GenerateRequest → GenerateRequest → exn + GenerateContentResponse.

(** Where the script lives decides the absolute paths it prints at the
    end. *)
Variable BASE_DIR : string.

Definition RESULTS_DIR : string := BASE_DIR +:+ "/results".
Definition PREDICTIONS_DIR : string := RESULTS_DIR +:+ "/predictions_test2".
Definition METADATA_DIR : string := RESULTS_DIR +:+ "/metadata2".

(** The generation call, recorded in [requests]. *)
Definition client_generate_content (req : GenerateRequest)
  : M GenerateContentResponse := λ w,
  (generate_content (requests w) req,
   {| data_dir := data_dir w; predictions := predictions w;
      metadata := metadata w; stdout := stdout w;
      requests := requests w ++ [req] |}).

(** Lines 68-74; [image_path] is [DATA_DIR / "images" / image_file].  Line
    73 prints [image_path.name], the last component of the path: that is
    [image_file] when it holds no slash, as with every entry of
    [IMAGE_FILES], and that is what is printed here. *)
Definition upload_image (image_file : string) : M Part :=
  file ← lift (files_upload ("images/" +:+ image_file));
  print ("  Uploaded: " +:+ image_file);;
  mret (Part_file_data
          {| mime_type := mime_type file; file_uri := file_uri file |}).

(** Lines 77-81. *)
Definition load_ground_truth (image_name : string) : M json :=
  s ← read_data ("ground_truth/" +:+ Py.replace ".jpg" ".json" image_name);
  lift (json_loads s).

(** Lines 84-88. *)
Definition load_prompt : M string :=
  prompt ← read_data "prompt.txt";
  mret ("Perform the following task using step-by-step reasoning." +:+ prompt).

#[local] Set Warnings "-inexact-float".

(** Lines 110-156: the body of the [try].  The literal [0.9] denotes the
    binary64 number nearest to nine tenths, in Python as here. *)
Definition run_experiment_body
    (model_name : string) (messages : list Content)
    (image_name strategy : string) (thinking_budget : Z) : M unit :=
  print ("  Running " +:+ strategy +:+ " (thinking=" +:+ Py.str thinking_budget
         +:+ ") on " +:+ image_name +:+ "...");;
  let thinking_config :=
    if (thinking_budget >? 0)%Z
    then Some {| thinking_budget := thinking_budget |}
    else None in
  response ← client_generate_content
    {| model := model_name;
       config := {| response_mime_type := "application/json";
                    temperature := 0.9%float;
                    thinking_config := thinking_config |};
       contents := messages |};
  let metadata :=
    JObject
      [ ("candidates_token_count",
          JInt (candidates_token_count (usage_metadata response)));
        ("thoughts_token_count",
          JInt (thoughts_token_count (usage_metadata response)));
        ("prompt_token_count",
          JInt (prompt_token_count (usage_metadata response)));
        ("total_token_count",
          JInt (total_token_count (usage_metadata response))) ] in
  if Py.truthy (response_text response) then
    response_json ← lift (json_loads (default "" (response_text response)));
    let pred_filename :=
      build_output_filename image_name model_name strategy thinking_budget "" in
    let meta_filename :=
      build_output_filename image_name model_name strategy thinking_budget "" in
    write_prediction pred_filename (json_dumps response_json);;
    write_metadata meta_filename (json_dumps metadata);;
    print ("  ✓ Saved: " +:+ pred_filename)
  else
    print "  ✗ Empty response".

#[local] Set Warnings "inexact-float".

(** Lines 108-159. *)
Definition run_experiment
    (model_name : string) (messages : list Content)
    (image_name strategy : string) (thinking_budget : Z) : M unit :=
  try_except
    (run_experiment_body model_name messages image_name strategy thinking_budget)
    (λ e, print ("  ✗ Error: " +:+ exn_text e)).

(** Lines 191-205: the loop over [example_indices], which extends
    [messages_fewshot] by a user turn and a model turn per example. *)
Fixpoint fewshot_examples
    (images : list string) (image_parts : gmap string Part) (prompt_part : Part)
    (example_indices : list nat) (messages_fewshot : list Content)
  : M (list Content) :=
  match example_indices with
  | [] => mret messages_fewshot
  | idx :: rest =>
      example_image ← lift (getitem images idx);
      gt_response ← load_ground_truth example_image;
      let gt_part := Part_text (json_dumps gt_response) in
      example_part ← lift (dict_getitem image_parts example_image);
      fewshot_examples images image_parts prompt_part rest
        (messages_fewshot ++
           [ {| role := "user"; parts := [example_part; prompt_part] |};
             {| role := "model"; parts := [gt_part] |} ])
  end.

(** Lines 191-209. *)
Definition messages_fewshot
    (images : list string) (image_parts : gmap string Part) (prompt_part : Part)
    (example_indices : list nat) (target_image : string) : M (list Content) :=
  messages ← fewshot_examples images image_parts prompt_part example_indices [];
  target_part ← lift (dict_getitem image_parts target_image);
  mret (messages ++ [ {| role := "user"; parts := [target_part; prompt_part] |} ]).

(** Lines 220-222. *)
Definition messages_zeroshot
    (image_parts : gmap string Part) (prompt_part : Part)
    (target_image : string) : M (list Content) :=
  target_part ← lift (dict_getitem image_parts target_image);
  mret [ {| role := "user"; parts := [target_part; prompt_part] |} ].

(** Lines 168-171. *)
Fixpoint upload_all (images : list string) (image_parts : gmap string Part)
  : M (gmap string Part) :=
  match images with
  | [] => mret image_parts
  | image_file :: rest =>
      part ← upload_image image_file;
      upload_all rest (<[image_file := part]> image_parts)
  end.

(** Lines 189-230: the two experiments of one thinking budget. *)
Definition run_budget
    (images : list string) (image_parts : gmap string Part) (prompt_part : Part)
    (model_name : string) (example_indices : list nat) (target_image : string)
    (thinking_budget : Z) : M unit :=
  fewshot ← messages_fewshot images image_parts prompt_part
              example_indices target_image;
  run_experiment model_name fewshot target_image "fewshot" thinking_budget;;
  zeroshot ← messages_zeroshot image_parts prompt_part target_image;
  run_experiment model_name zeroshot target_image "zeroshot" thinking_budget.

(** Lines 182-230: one combination. *)
Definition run_combination
    (images : list string) (budgets : list Z)
    (image_parts : gmap string Part) (prompt_part : Part)
    (model_name : string) (combination : list nat) : M unit :=
  let example_indices := combination in
  target_index ← lift (target_index (length images) example_indices);
  target_image ← lift (getitem images target_index);
  print (Py.nl +:+ "Target: " +:+ target_image);;
  for_each budgets
    (run_budget images image_parts prompt_part model_name
       example_indices target_image).

(** Lines 162-238, the script from "Load prompt" on, for a given image
    list, model list and budget list. *)
Definition script (images models : list string) (budgets : list Z) : M unit :=
  prompt_text ← load_prompt;
  let prompt_part := Part_text prompt_text in
  print (Py.nl +:+ "Uploading images...");;
  image_parts ← upload_all images ∅;
  let combinations := Itertools.combinations (Py.range (length images)) 3 in
  for_each models (λ model_name,
    print (Py.nl +:+ Py.repeat "=" 70);;
    print ("Model: " +:+ model_name);;
    print (Py.repeat "=" 70);;
    for_each combinations
      (run_combination images budgets image_parts prompt_part model_name));;
  print (Py.nl +:+ Py.repeat "=" 70);;
  print "Experiments complete!";;
  print ("Predictions saved to: " +:+ PREDICTIONS_DIR);;
  print ("Metadata saved to: " +:+ METADATA_DIR);;
  print (Py.repeat "=" 70).

Definition main : M unit := script IMAGE_FILES MODELS THINKING_BUDGETS.

End Harness.

(** ** A stub codec and a stub service

    To run the harness on concrete inputs its parameters need values.
    The stub codec reads and writes the JSON documents built from [null],
    booleans, integers, strings, arrays and objects, laid out as
    [json.dumps(., indent=4)] lays them out; it refuses a number with a
    fraction or an exponent and a [\u] escape, and writes a float, which
    no example contains, as [NaN]. *)

Module Stub.

Definition is_ws (c : ascii) : bool :=
  (c =? " ")%char || (c =? "009")%char || (c =? "010")%char || (c =? "013")%char.

Fixpoint skip_ws (s : string) : string :=
  match s with
  | String c s' => if is_ws c then skip_ws s' else s
  | EmptyString => s
  end.

Definition digit (c : ascii) : option Z :=
  let n := nat_of_ascii c in
  if (48 <=? n)%nat && (n <=? 57)%nat then Some (Z.of_nat (n - 48)) else None.

Fixpoint digits (acc : Z) (s : string) : Z * string :=
  match s with
  | String c s' =>
      match digit c with
      | Some d => digits (10 * acc + d)%Z s'
      | None => (acc, s)
      end
  | EmptyString => (acc, s)
  end.

(** The integer part [0 | [1-9][0-9]*]; a fraction or an exponent after
    it is refused. *)
Definition natural (s : string) : option (Z * string) :=
  match s with
  | String c s' =>
      match digit c with
      | Some d =>
          let '(n, rest) := if (d =? 0)%Z then (0%Z, s') else digits d s' in
          match rest with
          | String c' _ =>
              if (c' =? ".")%char || (c' =? "e")%char || (c' =? "E")%char
              then None else Some (n, rest)
          | EmptyString => Some (n, rest)
          end
      | None => None
      end
  | EmptyString => None
  end.

Definition escape (c : ascii) : option ascii :=
  if (c =? "034")%char then Some "034"%char
  else if (c =? "\")%char then Some "\"%char
  else if (c =? "/")%char then Some "/"%char
  else if (c =? "b")%char then Some "008"%char
  else if (c =? "f")%char then Some "012"%char
  else if (c =? "n")%char then Some "010"%char
  else if (c =? "r")%char then Some "013"%char
  else if (c =? "t")%char then Some "009"%char
  else None.

(** The characters of a string up to its closing quote. *)
Fixpoint chars (s : string) : option (string * string) :=
  match s with
  | EmptyString => None
  | String c s' =>
      if (c =? "034")%char then Some (EmptyString, s')
      else if (c =? "\")%char then
        match s' with
        | String e s'' =>
            match escape e, chars s'' with
            | Some c', Some (str, rest) => Some (String c' str, rest)
            | _, _ => None
            end
        | EmptyString => None
        end
      else if (nat_of_ascii c <? 32)%nat then None
      else
        match chars s' with
        | Some (str, rest) => Some (String c str, rest)
        | None => None
        end
  end.

(** [d[k] = v] on the fields of an object. *)
Fixpoint setitem (k : string) (v : json) (fields : list (string * json))
  : list (string * json) :=
  match fields with
  | [] => [(k, v)]
  | (k', v') :: rest =>
      if String.eqb k k' then (k, v) :: rest else (k', v') :: setitem k v rest
  end.

Fixpoint value (fuel : nat) (s : string) : option (json * string) :=
  match fuel with
  | O => None
  | S fuel =>
      let items := fix items (n : nat) (acc : list json) (s : string)
        : option (json * string) :=
        match n with
        | O => None
        | S n =>
            match value fuel (skip_ws s) with
            | Some (v, rest) =>
                match skip_ws rest with
                | String c rest' =>
                    if (c =? "]")%char then Some (JArray (acc ++ [v]), rest')
                    else if (c =? ",")%char then items n (acc ++ [v]) rest'
                    else None
                | EmptyString => None
                end
            | None => None
            end
        end in
      let members := fix members (n : nat) (acc : list (string * json))
          (s : string) : option (json * string) :=
        match n with
        | O => None
        | S n =>
            match skip_ws s with
            | String q s1 =>
                if (q =? "034")%char then
                  match chars s1 with
                  | Some (k, s2) =>
                      match skip_ws s2 with
                      | String c s3 =>
                          if (c =? ":")%char then
                            match value fuel (skip_ws s3) with
                            | Some (v, rest) =>
                                match skip_ws rest with
                                | String c' rest' =>
                                    if (c' =? "}")%char
                                    then Some (JObject (setitem k v acc), rest')
                                    else if (c' =? ",")%char
                                    then members n (setitem k v acc) rest'
                                    else None
                                | EmptyString => None
                                end
                            | None => None
                            end
                          else None
                      | EmptyString => None
                      end
                  | None => None
                  end
                else None
            | EmptyString => None
            end
        end in
      match s with
      | EmptyString => None
      | String c s' =>
          if (c =? "034")%char then
            match chars s' with
            | Some (str, rest) => Some (JString str, rest)
            | None => None
            end
          else if (c =? "[")%char then
            match skip_ws s' with
            | String c' rest =>
                if (c' =? "]")%char then Some (JArray [], rest)
                else items (String.length s') [] s'
            | EmptyString => None
            end
          else if (c =? "{")%char then
            match skip_ws s' with
            | String c' rest =>
                if (c' =? "}")%char then Some (JObject [], rest)
                else members (String.length s') [] s'
            | EmptyString => None
            end
          else if (c =? "-")%char then
            match natural s' with
            | Some (n, rest) => Some (JInt (- n)%Z, rest)
            | None => None
            end
          else if String.prefix "null" s then
            Some (JNull, String.substring 4 (String.length s - 4) s)
          else if String.prefix "true" s then
            Some (JBool true, String.substring 4 (String.length s - 4) s)
          else if String.prefix "false" s then
            Some (JBool false, String.substring 5 (String.length s - 5) s)
          else
            match natural s with
            | Some (n, rest) => Some (JInt n, rest)
            | None => None
            end
      end
  end.

Definition JSONDecodeError : exn := Exn "JSONDecodeError" "Expecting value".

Definition json_loads (s : string) : exn + json :=
  match value (S (String.length s)) (skip_ws s) with
  | Some (v, rest) =>
      match skip_ws rest with
      | EmptyString => inr v
      | String _ _ => inl JSONDecodeError
      end
  | None => inl JSONDecodeError
  end.

Definition hex_digit (n : nat) : ascii :=
  ascii_of_nat (if (n <? 10)%nat then 48 + n else 87 + n).

(** A character inside a string literal, as [ensure_ascii] writes it. *)
Definition quote_char (c : ascii) : string :=
  let n := nat_of_ascii c in
  if (c =? "034")%char then "\" +:+ Py.dq
  else if (c =? "\")%char then "\\"
  else if (c =? "010")%char then "\n"
  else if (c =? "013")%char then "\r"
  else if (c =? "009")%char then "\t"
  else if (c =? "008")%char then "\b"
  else if (c =? "012")%char then "\f"
  else if (n <? 32)%nat || (126 <? n)%nat then
    "\u00" +:+ String (hex_digit (n / 16)) (String (hex_digit (n mod 16)) "")
  else String c "".

Fixpoint quote_chars (s : string) : string :=
  match s with
  | EmptyString => EmptyString
  | String c s' => quote_char c +:+ quote_chars s'
  end.

Definition quote (s : string) : string := Py.dq +:+ quote_chars s +:+ Py.dq.

Definition newline_indent (level : nat) : string :=
  Py.nl +:+ Py.repeat "    " level.

Fixpoint dumps_at (level : nat) (v : json) : string :=
  match v with
  | JNull => "null"
  | JBool true => "true"
  | JBool false => "false"
  | JInt n => Py.str n
  | JFloat _ => "NaN"
  | JString s => quote s
  | JArray [] => "[]"
  | JArray items =>
      "[" +:+ newline_indent (S level)
      +:+ Py.join ("," +:+ newline_indent (S level))
            (dumps_at (S level) <$> items)
      +:+ newline_indent level +:+ "]"
  | JObject [] => "{}"
  | JObject fields =>
      "{" +:+ newline_indent (S level)
      +:+ Py.join ("," +:+ newline_indent (S level))
            ((λ kv, quote kv.1 +:+ ": " +:+ dumps_at (S level) kv.2) <$> fields)
      +:+ newline_indent level +:+ "}"
  end.

Definition json_dumps (v : json) : string := dumps_at 0 v.

(** A service that answers every call with the same reply. *)
Definition service (reply : exn + GenerateContentResponse)
  : list GenerateRequest → GenerateRequest → exn + GenerateContentResponse :=
  λ _ _, reply.

(** An upload that always succeeds. *)
Definition files_upload (path : string) : exn + FileData :=
  inr {| mime_type := "image/jpeg"; file_uri := "files/" +:+ path |}.

Definition empty_world : World :=
  {| data_dir := ∅; predictions := ∅; metadata := ∅;
     stdout := []; requests := [] |}.

(** The replies of the spec's three stub scenarios, with the usage counts
    (10, 5, 20, 35). *)
Definition usage : UsageMetadata :=
  {| candidates_token_count := 10; thoughts_token_count := 5;
     prompt_token_count := 20; total_token_count := 35 |}.

Definition valid_text : string := "{" +:+ Py.dq +:+ "a" +:+ Py.dq +:+ ":1}".

Definition valid_reply : GenerateContentResponse :=
  {| response_text := Some valid_text; usage_metadata := usage |}.

Definition malformed_reply : GenerateContentResponse :=
  {| response_text := Some "{not json"; usage_metadata := usage |}.

Definition empty_reply : GenerateContentResponse :=
  {| response_text := Some ""; usage_metadata := usage |}.

(** A data directory with the prompt and a ground truth file per image,
    and the parts the four uploads give. *)
Definition data : gmap string string :=
  list_to_map
    [ ("prompt.txt", "Extract the table.");
      ("ground_truth/NL-UtHUA_A376076_000033_l.json", "[33, 1]");
      ("ground_truth/NL-UtHUA_A376076_000033_r.json", "[33, 2]");
      ("ground_truth/NL-UtHUA_A376079_000005_l.json", "[5, 1]");
      ("ground_truth/NL-UtHUA_A376079_000005_r.json", "[5, 2]") ].

Definition world : World :=
  {| data_dir := data; predictions := ∅; metadata := ∅;
     stdout := []; requests := [] |}.

Definition uploaded (image_file : string) : Part :=
  Part_file_data {| mime_type := "image/jpeg";
                    file_uri := "files/images/" +:+ image_file |}.

Definition image_parts : gmap string Part :=
  list_to_map ((λ image_file, (image_file, uploaded image_file)) <$> IMAGE_FILES).

Definition prompt_part : Part :=
  Part_text "Perform the following task using step-by-step reasoning.Extract the table.".

(** A one-turn conversation about image [A.jpg]. *)
Definition conversation : list Content :=
  [ {| role := "user";
       parts := [ Part_file_data {| mime_type := "image/jpeg";
                                    file_uri := "files/images/A.jpg" |};
                  Part_text "Extract the table." ] |} ].

End Stub.

(** ** Writes that can fail

    The two blocks of lines 148-152 sit inside the [try] of line 110, and
    either can raise: [open] when the file cannot be created, [json.dump]
    after the file has been opened.  This module is the harness with such
    writes: what a write comes to is decided by the disk, a parameter
    like the codec and the service.  On a disk that always writes it is
    the harness above. *)

Module Disk.

Inductive directory := predictions_dir | metadata_dir.

(** What [with open(dir / name, "w") as f: json.dump(value, f, indent=4)]
    comes to: the file holds the whole dump; [open] raised and the entry
    is as it was; or the dump raised after [open] had created or emptied
    the file, which then holds what had reached it. *)
Inductive write_result :=
  | Written
  | Refused (e : exn)
  | Cut (e : exn) (kept : string).

(** The entry [name] of a directory set to [s]. *)
Definition store (dir : directory) (name s : string) (w : World) : World :=
  match dir with
  | predictions_dir =>
      {| data_dir := data_dir w; predictions := <[name := s]> (predictions w);
         metadata := metadata w; stdout := stdout w; requests := requests w |}
  | metadata_dir =>
      {| data_dir := data_dir w; predictions := predictions w;
         metadata := <[name := s]> (metadata w); stdout := stdout w;
         requests := requests w |}
  end.

Section Model.

Variable json_loads : string → exn + json.
Variable json_dumps : json → string.
Variable files_upload : string → exn + FileData.
Variable generate_content :
  list GenerateRequest → GenerateRequest → exn + GenerateContentResponse.
Variable BASE_DIR : string.

(** The disk: what writing the text [s] under [name] in a directory comes
    to, in the world as it is then. *)
Variable disk : World → directory → string → string → write_result.

Definition write (dir : directory) (name s : string) : M unit := λ w,
  match disk w dir name s with
  | Written => (inr tt, store dir name s w)
  | Refused e => (inl e, w)
  | Cut e kept => (inl e, store dir name kept w)
  end.

(** Lines 148-149 and 151-152. *)
Definition write_prediction (name s : string) : M unit :=
  write predictions_dir name s.

Definition write_metadata (name s : string) : M unit :=
  write metadata_dir name s.

#[local] Set Warnings "-inexact-float".

(** Lines 110-156: the body of the [try]. *)
Definition run_experiment_body
    (model_name : string) (messages : list Content)
    (image_name strategy : string) (thinking_budget : Z) : M unit :=
  print ("  Running " +:+ strategy +:+ " (thinking=" +:+ Py.str thinking_budget
         +:+ ") on " +:+ image_name +:+ "...");;
  let thinking_config :=
    if (thinking_budget >? 0)%Z
    then Some {| thinking_budget := thinking_budget |}
    else None in
  response ← client_generate_content generate_content
    {| model := model_name;
       config := {| response_mime_type := "application/json";
                    temperature := 0.9%float;
                    thinking_config := thinking_config |};
       contents := messages |};
  let metadata :=
    JObject
      [ ("candidates_token_count",
          JInt (candidates_token_count (usage_metadata response)));
        ("thoughts_token_count",
          JInt (thoughts_token_count (usage_metadata response)));
        ("prompt_token_count",
          JInt (prompt_token_count (usage_metadata response)));
        ("total_token_count",
          JInt (total_token_count (usage_metadata response))) ] in
  if Py.truthy (response_text response) then
    response_json ← lift (json_loads (default "" (response_text response)));
    let pred_filename :=
      build_output_filename image_name model_name strategy thinking_budget "" in
    let meta_filename :=
      build_output_filename image_name model_name strategy thinking_budget "" in
    write_prediction pred_filename (json_dumps response_json);;
    write_metadata meta_filename (json_dumps metadata);;
    print ("  ✓ Saved: " +:+ pred_filename)
  else
    print "  ✗ Empty response".

#[local] Set Warnings "inexact-float".

(** Lines 108-159. *)
Definition run_experiment
    (model_name : string) (messages : list Content)
    (image_name strategy : string) (thinking_budget : Z) : M unit :=
  try_except
    (run_experiment_body model_name messages image_name strategy thinking_budget)
    (λ e, print ("  ✗ Error: " +:+ exn_text e)).

(** Lines 189-230. *)
Definition run_budget
    (images : list string) (image_parts : gmap string Part) (prompt_part : Part)
    (model_name : string) (example_indices : list nat) (target_image : string)
    (thinking_budget : Z) : M unit :=
  fewshot ← messages_fewshot json_loads json_dumps images image_parts
              prompt_part example_indices target_image;
  run_experiment model_name fewshot target_image "fewshot" thinking_budget;;
  zeroshot ← messages_zeroshot image_parts prompt_part target_image;
  run_experiment model_name zeroshot target_image "zeroshot" thinking_budget.

(** Lines 182-230. *)
Definition run_combination
    (images : list string) (budgets : list Z)
    (image_parts : gmap string Part) (prompt_part : Part)
    (model_name : string) (combination : list nat) : M unit :=
  let example_indices := combination in
  target_index ← lift (target_index (length images) example_indices);
  target_image ← lift (getitem images target_index);
  print (Py.nl +:+ "Target: " +:+ target_image);;
  for_each budgets
    (run_budget images image_parts prompt_part model_name
       example_indices target_image).

(** Lines 162-238. *)
Definition script (images models : list string) (budgets : list Z) : M unit :=
  prompt_text ← load_prompt;
  let prompt_part := Part_text prompt_text in
  print (Py.nl +:+ "Uploading images...");;
  image_parts ← upload_all files_upload images ∅;
  let combinations := Itertools.combinations (Py.range (length images)) 3 in
  for_each models (λ model_name,
    print (Py.nl +:+ Py.repeat "=" 70);;
    print ("Model: " +:+ model_name);;
    print (Py.repeat "=" 70);;
    for_each combinations
      (run_combination images budgets image_parts prompt_part model_name));;
  print (Py.nl +:+ Py.repeat "=" 70);;
  print "Experiments complete!";;
  print ("Predictions saved to: " +:+ PREDICTIONS_DIR BASE_DIR);;
  print ("Metadata saved to: " +:+ METADATA_DIR BASE_DIR);;
  print (Py.repeat "=" 70).

Definition main : M unit := script IMAGE_FILES MODELS THINKING_BUDGETS.

End Model.

(** A disk on which every write goes through. *)
Definition sound : World → directory → string → string → write_result :=
  λ _ _ _ _, Written.

(** A disk on which the metadata directory cannot be written to. *)
Definition metadata_denied
  : World → directory → string → string → write_result :=
  λ _ dir _ _,
    match dir with
    | predictions_dir => Written
    | metadata_dir =>
        Refused (Exn "PermissionError" "[Errno 13] Permission denied")
    end.

(** A disk that fills up while the metadata file is being written. *)
Definition metadata_cut
  : World → directory → string → string → write_result :=
  λ _ dir _ _,
    match dir with
    | predictions_dir => Written
    | metadata_dir =>
        Cut (Exn "OSError" "[Errno 28] No space left on device") "{"
    end.

End Disk.

(** ** Vocabulary of the statements *)

(** The character-wise substitution of [b] for [a]. *)
Fixpoint subst_char (a b : ascii) (s : string) : string :=
  match s with
  | EmptyString => EmptyString
  | String c s' => String (if (a =? c)%char then b else c) (subst_char a b s')
  end.

(** No character of [s] is [c]. *)
Fixpoint free_of (c : ascii) (s : string) : Prop :=
  match s with
  | EmptyString => True
  | String c' s' => c' ≠ c ∧ free_of c s'
  end.

#[local] Set Warnings "-inexact-float".

(** The request [run_experiment] sends for a model, a conversation and a
    thinking budget. *)
Definition generation_request
    (model_name : string) (messages : list Content) (budget : Z)
  : GenerateRequest :=
  {| model := model_name;
     config := {| response_mime_type := "application/json";
                  temperature := 0.9%float;
                  thinking_config :=
                    if (budget >? 0)%Z
                    then Some {| thinking_budget := budget |} else None |};
     contents := messages |}.
#[local] Set Warnings "inexact-float".

(** The progress line every experiment starts with. *)
Definition running_line (image_name strategy : string) (budget : Z) : string :=
  "  Running " +:+ strategy +:+ " (thinking=" +:+ Py.str budget
  +:+ ") on " +:+ image_name +:+ "...".

(** The usage record as the metadata file holds it. *)
Definition metadata_json (u : UsageMetadata) : json :=
  JObject
    [ ("candidates_token_count", JInt (candidates_token_count u));
      ("thoughts_token_count", JInt (thoughts_token_count u));
      ("prompt_token_count", JInt (prompt_token_count u));
      ("total_token_count", JInt (total_token_count u)) ].

(** A world after an experiment that sent [req] and printed [lines] but
    wrote no file. *)
Definition after_call (w : World) (req : GenerateRequest) (lines : list string)
  : World :=
  {| data_dir := data_dir w; predictions := predictions w;
     metadata := metadata w; stdout := stdout w ++ lines;
     requests := requests w ++ [req] |}.

(** The two turns an example contributes and the turn that asks about an
    image. *)
Definition user_turn (image_part prompt_part : Part) : Content :=
  {| role := "user"; parts := [image_part; prompt_part] |}.

Definition model_turn (answer : string) : Content :=
  {| role := "model"; parts := [Part_text answer] |}.

Definition example_turns (prompt_part : Part) (ex : Part * string)
  : list Content :=
  [ user_turn ex.1 prompt_part; model_turn ex.2 ].

(** The shape of a zero-shot conversation, and of a few-shot conversation
    with [k] examples. *)
Definition zeroshot_shape (prompt_part : Part) (messages : list Content)
  : Prop :=
  ∃ target_part, messages = [user_turn target_part prompt_part].

Definition fewshot_shape (prompt_part : Part) (k : nat)
    (messages : list Content) : Prop :=
  ∃ (examples : list (Part * string)) (target_part : Part),
    length examples = k
    ∧ messages = flat_map (example_turns prompt_part) examples
                 ++ [user_turn target_part prompt_part].

(** A postcondition logic for the statements of the script.  In a world
    whose data directory is [d], the statement [m] leaves the data
    directory alone, sends only requests that satisfy [P], and a value it
    returns satisfies [Q]. *)
Definition ensures {A} (d : gmap string string) (P : GenerateRequest → Prop)
    (Q : A → Prop) (m : M A) : Prop :=
  ∀ w, data_dir w = d →
    data_dir (m w).2 = d
    ∧ (∃ new, requests (m w).2 = requests w ++ new ∧ Forall P new)
    ∧ (∀ x, (m w).1 = inr x → Q x).

(** Example [idx] is ready in the data directory [d] when the image list
    has a name at that index, the image was uploaded as [part], and the
    ground truth file of that name parses to [gt]. *)
Definition example_ready (json_loads : string → exn + json)
    (d : gmap string string)
    (images : list string) (image_parts : gmap string Part)
    (idx : nat) (part : Part) (gt : json) : Prop :=
  ∃ name text,
    images !! idx = Some name
    ∧ image_parts !! name = Some part
    ∧ d !! ("ground_truth/" +:+ Py.replace ".jpg" ".json" name) = Some text
    ∧ json_loads text = inr gt.

(** What every request of a run looks like: a zero-shot conversation or a
    few-shot conversation with [k] examples, all around one prompt part. *)
Definition well_formed (prompt_part : Part) (k : nat) (req : GenerateRequest)
  : Prop :=
  zeroshot_shape prompt_part (contents req)
  ∨ fewshot_shape prompt_part k (contents req).

(** The number of ways to choose [k] of [n] things. *)
Fixpoint choose (n k : nat) : nat :=
  match n, k with
  | _, O => 1
  | O, S _ => 0
  | S n', S k' => choose n' k' + choose n' k
  end.

(** A second postcondition logic, for what holds of the world however a
    statement ends: [m] takes every world to a world related to it by [R],
    and a value it returns satisfies [Q]. *)
Definition keeps {A} (R : relation World) (Q : A → Prop) (m : M A) : Prop :=
  ∀ w, R w (m w).2 ∧ ∀ x, (m w).1 = inr x → Q x.

(** And a third, for runs that go through: in a world whose data
    directory is [d], [m] returns normally, leaves the data directory
    alone, takes the world to one related by [R], sends exactly [k]
    requests, and returns a value that satisfies [Q]. *)
Definition completes {A} (d : gmap string string) (R : relation World)
    (k : nat) (Q : A → Prop) (m : M A) : Prop :=
  ∀ w, data_dir w = d →
    ∃ x w', m w = (inr x, w') ∧ data_dir w' = d ∧ R w w'
            ∧ length (requests w') = length (requests w) + k ∧ Q x.

(** The second world differs from the first in what was printed only. *)
Definition quiet (w w' : World) : Prop :=
  data_dir w' = data_dir w ∧ predictions w' = predictions w
  ∧ metadata w' = metadata w ∧ requests w' = requests w
  ∧ stdout w `prefix_of` stdout w'.

(** The file names a run over the given lists can write. *)
Definition identity_name (images models : list string) (budgets : list Z)
    (name : string) : Prop :=
  ∃ image_name model_name strategy budget,
    image_name ∈ images ∧ model_name ∈ models
    ∧ strategy ∈ ["fewshot"; "zeroshot"] ∧ budget ∈ budgets
    ∧ name = build_output_filename image_name model_name strategy budget "".

(** What a run may do to the output directories and the two logs: files
    are created or replaced only under identity names, nothing is removed,
    the logs only grow and the data directory stays. *)
Definition grows (images models : list string) (budgets : list Z)
    (w w' : World) : Prop :=
  data_dir w' = data_dir w
  ∧ stdout w `prefix_of` stdout w'
  ∧ requests w `prefix_of` requests w'
  ∧ (∀ name, is_Some (predictions w !! name) → is_Some (predictions w' !! name))
  ∧ (∀ name, is_Some (metadata w !! name) → is_Some (metadata w' !! name))
  ∧ (∀ name, ¬ identity_name images models budgets name →
       predictions w' !! name = predictions w !! name
       ∧ metadata w' !! name = metadata w !! name).

(** Every metadata file has a prediction file of the same name. *)
Definition metadata_has_prediction (w : World) : Prop :=
  dom (metadata w) ⊆ dom (predictions w).

(** The same in the second world, if it was so in the first. *)
Definition metadata_stays_covered (w w' : World) : Prop :=
  metadata_has_prediction w → metadata_has_prediction w'.

(** The two directories hold the same file names in the second world, if
    they did in the first. *)
Definition stays_paired (w w' : World) : Prop :=
  dom (predictions w) = dom (metadata w) →
  dom (predictions w') = dom (metadata w').

(** A disk that takes every write. *)
Definition never_fails
    (disk : World → Disk.directory → string → string → Disk.write_result)
  : Prop :=
  ∀ w dir name s, disk w dir name s = Disk.Written.

(** The relation that holds between any two worlds. *)
Definition anyhow (w w' : World) : Prop := True.

(** And a last one, for runs that stop: in a world whose data directory
    is [d], [m] raises [e] and leaves a world related by [R]. *)
Definition fails {A} (d : gmap string string) (R : relation World)
    (e : exn) (m : M A) : Prop :=
  ∀ w, data_dir w = d → ∃ w', m w = (inl e, w') ∧ R w w'.

(** * Properties *)

(** ** String operations *)

Lemma string_app_cons (x : ascii) (a b : string) :
  String x a +:+ b = String x (a +:+ b).
Proof. reflexivity. Qed.

Lemma string_app_nil_l (a : string) : "" +:+ a = a.
Proof. reflexivity. Qed.

Lemma string_app_assoc (a b c : string) : (a +:+ b) +:+ c = a +:+ b +:+ c.
Proof.
  induction a as [|x a IH]; [done|]. rewrite !string_app_cons. by f_equal.
Qed.

Lemma string_app_length (a b : string) :
  String.length (a +:+ b) = (String.length a + String.length b)%nat.
Proof.
  induction a as [|x a IH]; [done|]. rewrite string_app_cons. simpl. by f_equal.
Qed.

Lemma replace_char (a b : ascii) (s : string) :
  Py.replace (String a "") (String b "") s = subst_char a b s.
Proof.
  unfold Py.replace.
  induction s as [|c s IH]; [done|].
  cbn [Py.replace_from String.prefix String.length Nat.pred subst_char].
  destruct (Ascii.ascii_dec a c) as [->|Hne].
  - rewrite Ascii.eqb_refl. rewrite string_app_cons, string_app_nil_l.
    rewrite <- IH. by destruct s.
  - apply Ascii.eqb_neq in Hne. rewrite Hne. by rewrite IH.
Qed.

Lemma subst_char_free (a b : ascii) (s : string) :
  a ≠ b → free_of a (subst_char a b s).
Proof.
  intros Hab. induction s as [|c s IH]; [done|]. simpl. split; [|done].
  destruct (Ascii.eqb_spec a c); congruence.
Qed.

Lemma subst_char_id (a b : ascii) (s : string) :
  free_of a s → subst_char a b s = s.
Proof.
  induction s as [|c s IH]; [done|]. intros [Hc Hs]. simpl.
  rewrite IH by done. destruct (Ascii.eqb_spec a c); congruence.
Qed.

(** A pattern whose first character does not occur in [s] is not found,
    and [replace] leaves [s] as it is. *)
Lemma replace_absent (c : ascii) (old new s : string) :
  free_of c s → Py.replace (String c old) new s = s.
Proof.
  unfold Py.replace.
  induction s as [|x s IH]; [done|]. intros [Hx Hs].
  cbn [Py.replace_from String.prefix].
  destruct (Ascii.ascii_dec c x) as [->|Hne]; [done|].
  by rewrite IH.
Qed.

Lemma replace_from_skip (old new : string) (k : nat) (s t : string) :
  String.length s = k →
  Py.replace_from old new k (s +:+ t) = Py.replace_from old new 0 t.
Proof.
  revert k. induction s as [|x s IH]; intros k Hk; simpl in *; subst; [done|].
  by apply IH.
Qed.

Lemma prefix_app (p s : string) : String.prefix p (p +:+ s) = true.
Proof.
  induction p as [|c p IH]; [by destruct s|].
  rewrite string_app_cons. simpl.
  destruct (Ascii.ascii_dec c c); [done | congruence].
Qed.

(** An occurrence at the very start is replaced, and scanning resumes
    right after it. *)
Lemma replace_at_start (c : ascii) (old new s : string) :
  Py.replace (String c old) new (String c old +:+ s)
  = new +:+ Py.replace (String c old) new s.
Proof.
  unfold Py.replace.
  rewrite string_app_cons. cbn [Py.replace_from].
  rewrite <- string_app_cons, prefix_app. cbn [String.length Nat.pred].
  by rewrite replace_from_skip.
Qed.

(** Characters before the first occurrence are kept. *)
Lemma replace_app_free (c : ascii) (old new s t : string) :
  free_of c s →
  Py.replace (String c old) new (s +:+ t)
  = s +:+ Py.replace (String c old) new t.
Proof.
  unfold Py.replace.
  induction s as [|x s IH]; [done|]. intros [Hx Hs].
  rewrite !string_app_cons.
  cbn [Py.replace_from String.prefix].
  destruct (Ascii.ascii_dec c x) as [->|Hne]; [done|].
  by rewrite IH.
Qed.

Lemma string_app_nil_r (a : string) : a +:+ "" = a.
Proof.
  induction a as [|x a IH]; [done|]. rewrite string_app_cons. by f_equal.
Qed.

(** The image base name: a name without a dot, followed by [.jpg], loses
    exactly the extension. *)
Lemma image_base_of_jpg (base : string) :
  free_of "." base → Py.replace ".jpg" "" (base +:+ ".jpg") = base.
Proof.
  intros Hb. rewrite (replace_app_free "." "jpg" "" base ".jpg" Hb).
  change (Py.replace ".jpg" "" ".jpg") with "".
  apply string_app_nil_r.
Qed.

(** The model short name: the service prefix goes, colons become
    hyphens. *)
Lemma model_short_of_prefixed (name : string) :
  free_of "m" name →
  get_model_short_name ("models/" +:+ name) = subst_char ":" "-" name.
Proof.
  intros Hn. unfold get_model_short_name.
  rewrite (replace_at_start "m" "odels/" "" name).
  rewrite (replace_absent "m" "odels/" "" name Hn).
  apply (replace_char ":" "-").
Qed.

Lemma model_short_has_no_colon (model_name : string) :
  free_of ":" (get_model_short_name model_name).
Proof.
  unfold get_model_short_name. rewrite (replace_char ":" "-").
  by apply subst_char_free.
Qed.

(** The model of [str.replace] on the cases that tell replacement
    strategies apart: every occurrence goes, matches are taken leftmost
    first and do not overlap, the output is not scanned again, and an
    empty pattern matches between characters. *)
Example replace_examples :
  Py.replace ".jpg" "" "a.jpg.jpgb.jp.jpg" = "ab.jp"
  ∧ Py.replace "aa" "b" "aaa" = "ba"
  ∧ Py.replace ".jpg" "" ".j.jpgpg" = ".jpg"
  ∧ Py.replace "" "-" "abc" = "-a-b-c-"
  ∧ get_model_short_name "models/tuned:v1:b" = "tuned-v1-b"
  ∧ Py.str 2000 = "2000" ∧ Py.str (-7) = "-7".
Proof. repeat split; reflexivity. Qed.

(** ** Output naming *)

(** C3: the file name of the zero-shot run on [A.jpg] with budget 0 is the
    one the spec quotes, and for every image name, model name, strategy
    and budget the name is: the image name with [.jpg] removed, the model
    name with [models/] removed and each colon turned into a hyphen, the
    strategy, and [thinking] followed by the budget in decimal, joined by
    double underscores and ending in [.json]. *)
Theorem build_output_filename_spec :
  build_output_filename "A.jpg" "models/gemini-2.5-flash-lite" "zeroshot" 0 ""
  = "A__gemini-2.5-flash-lite__zeroshot__thinking0.json"
  ∧ ∀ (image_name model_name strategy : string) (budget : Z),
      build_output_filename image_name model_name strategy budget ""
      = Py.replace ".jpg" "" image_name +:+ "__"
        +:+ subst_char ":" "-" (Py.replace "models/" "" model_name) +:+ "__"
        +:+ strategy +:+ "__"
        +:+ "thinking" +:+ Py.str budget +:+ ".json".
Proof.
  split; [reflexivity|].
  intros image_name model_name strategy budget.
  unfold build_output_filename, get_model_short_name.
  rewrite (replace_char ":" "-"). cbn [Py.join].
  by rewrite !string_app_assoc.
Qed.

(** For the names the script works with, a plain base name followed by
    [.jpg] and a plain model name behind [models/], the four fields are
    the base name and the model name themselves. *)
Lemma build_output_filename_plain
    (base name strategy : string) (budget : Z) :
  free_of "." base → free_of "m" name → free_of ":" name →
  build_output_filename (base +:+ ".jpg") ("models/" +:+ name) strategy budget ""
  = base +:+ "__" +:+ name +:+ "__" +:+ strategy +:+ "__thinking"
    +:+ Py.str budget +:+ ".json".
Proof.
  intros Hb Hm Hc. unfold build_output_filename.
  rewrite image_base_of_jpg, model_short_of_prefixed, subst_char_id by done.
  cbn [Py.join]. by rewrite !string_app_assoc.
Qed.

(** ** Loading the prompt *)

(** C10: whatever [prompt.txt] contains, [load_prompt] returns the fixed
    sentence followed directly by the contents, which therefore is never
    the raw contents. *)
Theorem load_prompt_prepends (w : World) (prompt : string) :
  data_dir w !! "prompt.txt" = Some prompt →
  load_prompt w
  = (inr ("Perform the following task using step-by-step reasoning." +:+ prompt),
     w)
  ∧ "Perform the following task using step-by-step reasoning." +:+ prompt
    ≠ prompt.
Proof.
  intros Hfile. split.
  - unfold load_prompt, mbind, M_bind, read_data. by rewrite Hfile.
  - intros Heq. apply (f_equal String.length) in Heq.
    rewrite string_app_length in Heq. simpl in Heq. lia.
Qed.

Lemma load_prompt_prepends_witness :
  load_prompt
    {| data_dir := {[ "prompt.txt" := "Extract the table." ]};
       predictions := ∅; metadata := ∅; stdout := []; requests := [] |}
  = (inr "Perform the following task using step-by-step reasoning.Extract the table.",
     {| data_dir := {[ "prompt.txt" := "Extract the table." ]};
        predictions := ∅; metadata := ∅; stdout := []; requests := [] |}).
Proof.
  exact (proj1 (load_prompt_prepends
    {| data_dir := {[ "prompt.txt" := "Extract the table." ]};
       predictions := ∅; metadata := ∅; stdout := []; requests := [] |}
    "Extract the table." eq_refl)).
Defined.

(** Without the file the script stops at once. *)
Lemma load_prompt_missing (w : World) :
  data_dir w !! "prompt.txt" = None →
  load_prompt w = (inl (FileNotFoundError "prompt.txt"), w).
Proof.
  intros Hfile. unfold load_prompt, mbind, M_bind, read_data. by rewrite Hfile.
Qed.

(** ** The combination generator *)

(** [combinations pool r] lists exactly the subsequences of [pool] that
    have [r] elements. *)
Lemma elem_of_combinations {A} (pool : list A) (r : nat) (c : list A) :
  c ∈ Itertools.combinations pool r ↔ c `sublist_of` pool ∧ length c = r.
Proof.
  revert r c. induction pool as [|x xs IH]; intros [|r] c; simpl.
  - rewrite list_elem_of_singleton, sublist_nil_r.
    split; [by intros ->|]. by intros [-> _].
  - rewrite elem_of_nil, sublist_nil_r. split; [done|]. by intros [-> ?].
  - rewrite list_elem_of_singleton. split.
    + intros ->. split; [apply sublist_nil_l | done].
    + intros [_ Hlen]. by apply nil_length_inv.
  - rewrite elem_of_app, list_elem_of_fmap, sublist_cons_r. split.
    + intros [(c' & -> & Hc')|Hc].
      * apply IH in Hc' as [Hsub <-]. split; [right; eauto | done].
      * apply IH in Hc as [Hsub Hlen]. split; [by left | done].
    + intros [[Hsub|(c' & -> & Hsub)] Hlen].
      * right. apply IH. done.
      * left. exists c'. split; [done|]. apply IH. split; [done|].
        simpl in Hlen. lia.
Qed.

Lemma combinations_NoDup {A} (pool : list A) (r : nat) :
  NoDup pool → NoDup (Itertools.combinations pool r).
Proof.
  revert r. induction pool as [|x xs IH]; intros [|r] Hnd; simpl.
  - apply NoDup_singleton.
  - apply NoDup_nil_2.
  - apply NoDup_singleton.
  - apply NoDup_cons in Hnd as [Hx Hxs].
    apply NoDup_app. split; [|split].
    + apply (NoDup_fmap_2 _). by apply IH.
    + intros c (c' & -> & _)%list_elem_of_fmap Hc.
      apply elem_of_combinations in Hc as [Hsub _].
      apply Hx. eapply elem_of_sublist; [left | done].
    + by apply IH.
Qed.

(** Each combination draws distinct elements from a pool of distinct
    elements, so it is a subset, and distinct combinations are distinct
    subsets. *)
Lemma combinations_each_NoDup {A} (pool : list A) (r : nat) (c : list A) :
  NoDup pool → c ∈ Itertools.combinations pool r → NoDup c.
Proof.
  intros Hnd [Hsub _]%elem_of_combinations. by eapply sublist_NoDup.
Qed.

Lemma sublist_same_elements {A} (pool c1 c2 : list A) :
  NoDup pool → c1 `sublist_of` pool → c2 `sublist_of` pool →
  (∀ x, x ∈ c1 ↔ x ∈ c2) → c1 = c2.
Proof.
  intros Hnd. revert c1 c2.
  induction pool as [|x xs IH]; intros c1 c2 H1 H2 Heq.
  - apply sublist_nil_r in H1, H2. by subst.
  - apply NoDup_cons in Hnd as [Hx Hxs].
    apply sublist_cons_r in H1 as [H1|(c1' & -> & H1)];
    apply sublist_cons_r in H2 as [H2|(c2' & -> & H2)].
    + by apply IH.
    + exfalso. apply Hx. eapply elem_of_sublist; [|exact H1].
      apply Heq. left.
    + exfalso. apply Hx. eapply elem_of_sublist; [|exact H2].
      apply Heq. left.
    + f_equal. apply IH; [done..|]. intros y.
      assert (x ∉ c1') by (intros ?; apply Hx; by eapply elem_of_sublist).
      assert (x ∉ c2') by (intros ?; apply Hx; by eapply elem_of_sublist).
      specialize (Heq y). rewrite !elem_of_cons in Heq.
      split; intros Hy; [destruct (proj1 Heq) as [->|]
                        | destruct (proj2 Heq) as [->|]]; auto; done.
Qed.

(** The order is that of the library: [combinations('ABCD', 2)] is
    AB AC AD BC BD CD, and asking for more than the pool holds gives
    nothing. *)
Example combinations_examples :
  Itertools.combinations ["A"; "B"; "C"; "D"] 2
  = [ ["A"; "B"]; ["A"; "C"]; ["A"; "D"]; ["B"; "C"]; ["B"; "D"]; ["C"; "D"] ]
  ∧ Itertools.combinations (Py.range 2) 3 = [].
Proof. split; reflexivity. Qed.

(** ** Choosing the target *)

Lemma elem_of_range_minus (n : nat) (ys : list nat) (i : nat) :
  i ∈ Py.range_minus n ys ↔ (i < n)%nat ∧ i ∉ ys.
Proof.
  unfold Py.range_minus, Py.range. rewrite list_elem_of_filter, elem_of_seq.
  split; intros [? ?]; split; (done || lia).
Qed.

(** The indices of [range(n)] split into those of the subset and those
    left over. *)
Lemma range_minus_length (n : nat) (ys : list nat) :
  NoDup ys → (∀ i, i ∈ ys → (i < n)%nat) →
  (length (Py.range_minus n ys) + length ys = n)%nat.
Proof.
  intros Hnd Hlt.
  assert (filter (λ i, i ∈ ys) (Py.range n) ≡ₚ ys) as Hin.
  { apply NoDup_Permutation; [apply NoDup_filter, NoDup_seq | done |].
    intros i. unfold Py.range. rewrite list_elem_of_filter, elem_of_seq.
    split; [by intros [? _] | intros Hi; split; [done|]].
    specialize (Hlt i Hi). lia. }
  pose proof (filter_app_complement (λ i, i ∈ ys) (Py.range n)) as Hsplit.
  apply Permutation_length in Hsplit. rewrite length_app in Hsplit.
  rewrite Hin in Hsplit. unfold Py.range_minus, Py.range in *.
  rewrite length_seq in Hsplit. lia.
Qed.

Lemma target_index_inr (n : nat) (c : list nat) (t : nat) :
  target_index n c = inr t → (t < n)%nat ∧ t ∉ c.
Proof.
  unfold target_index, getitem. intros Ht.
  destruct (Py.range_minus n c) as [|t' rest] eqn:Hdiff; simplify_eq/=.
  apply elem_of_range_minus. rewrite Hdiff. left.
Qed.

Lemma target_index_inl (n : nat) (c : list nat) (e : exn) :
  target_index n c = inl e ↔ e = IndexError ∧ ∀ i, (i < n)%nat → i ∈ c.
Proof.
  unfold target_index, getitem.
  destruct (Py.range_minus n c) as [|t' rest] eqn:Hdiff; simpl.
  - split; [intros [= <-]; split; [done|] | by intros [-> _]].
    intros i Hi. destruct (decide (i ∈ c)) as [|Hni]; [done|].
    assert (i ∈ Py.range_minus n c) as Hin by by apply elem_of_range_minus.
    rewrite Hdiff in Hin. by apply elem_of_nil in Hin.
  - split; [done|]. intros [_ Hall].
    assert (t' ∈ Py.range_minus n c) as Hin by (rewrite Hdiff; left).
    apply elem_of_range_minus in Hin as [Hlt Hni].
    by specialize (Hall t' Hlt).
Qed.

(** With one index more than the subset holds, the target is the one
    index the subset leaves out. *)
Lemma target_index_complement (n : nat) (c : list nat) :
  NoDup c → (∀ i, i ∈ c → (i < n)%nat) → n = S (length c) →
  ∃ t, target_index n c = inr t ∧ (t < n)%nat ∧ (t ∉ c)
       ∧ ∀ i, (i < n)%nat → i ∉ c → i = t.
Proof.
  intros Hnd Hlt Hn.
  pose proof (range_minus_length n c Hnd Hlt) as Hlen.
  destruct (Py.range_minus n c) as [|t [|??]] eqn:Hdiff; simpl in Hlen; try lia.
  exists t.
  assert (target_index n c = inr t) as Ht
    by (unfold target_index, getitem; by rewrite Hdiff).
  split; [done|]. destruct (target_index_inr _ _ _ Ht). split_and!; [done..|].
  intros i Hi Hni.
  assert (i ∈ Py.range_minus n c) as Hin by by apply elem_of_range_minus.
  rewrite Hdiff in Hin. by apply list_elem_of_singleton in Hin.
Qed.

(** C1: for the four images the generator yields exactly four subsets of
    three indices each, pairwise different as sets, and the target computed
    for a subset is the one index of 0..3 outside it. *)
Theorem combinations_of_four_images :
  let combinations := Itertools.combinations (Py.range (length IMAGE_FILES)) 3 in
  combinations = [ [0; 1; 2]; [0; 1; 3]; [0; 2; 3]; [1; 2; 3] ]
  ∧ length combinations = 4
  ∧ (∀ c, c ∈ combinations →
       length c = 3 ∧ NoDup c ∧ ∀ i, i ∈ c → (i < 4)%nat)
  ∧ (∀ c1 c2, c1 ∈ combinations → c2 ∈ combinations →
       (∀ i, i ∈ c1 ↔ i ∈ c2) → c1 = c2)
  ∧ (∀ c, c ∈ combinations →
       ∃ t, target_index (length IMAGE_FILES) c = inr t
            ∧ (t < 4)%nat ∧ (t ∉ c)
            ∧ ∀ i, (i < 4)%nat → i ∉ c → i = t).
Proof.
  intros combinations. change (length IMAGE_FILES) with 4 in *.
  assert (NoDup (Py.range 4)) as Hpool by apply NoDup_seq.
  assert (∀ c, c ∈ combinations →
            length c = 3 ∧ NoDup c ∧ ∀ i, i ∈ c → (i < 4)%nat) as Hshape.
  { intros c [Hsub Hlen]%elem_of_combinations. split_and!; [done | |].
    - by eapply sublist_NoDup.
    - intros i Hi. eapply elem_of_sublist in Hi; [|done].
      apply elem_of_seq in Hi. lia. }
  split_and!; [reflexivity | reflexivity | done | |].
  - intros c1 c2 [H1 _]%elem_of_combinations [H2 _]%elem_of_combinations.
    by apply sublist_same_elements with (pool := Py.range 4).
  - intros c Hc. destruct (Hshape c Hc) as (Hlen & Hnd & Hlt).
    apply target_index_complement; [done | done | by rewrite Hlen].
Qed.

Lemma combinations_of_four_images_witness :
  ∃ t, target_index (length IMAGE_FILES) [0; 2; 3] = inr t
       ∧ (t < 4)%nat ∧ (t ∉ [0; 2; 3])
       ∧ ∀ i, (i < 4)%nat → i ∉ [0; 2; 3] → i = t.
Proof.
  apply (proj2 (proj2 (proj2 (proj2 combinations_of_four_images)))).
  vm_compute. apply list_elem_of_In. vm_compute. auto.
Defined.

(** C8 as stated does not hold: with five images and the subset (0, 1, 2)
    the size is not one more than the subset's, and the step returns
    index 3 instead of failing. *)
Lemma target_index_five_images :
  5 ≠ (length [0; 1; 2] + 1)%nat ∧ target_index 5 [0; 1; 2] = inr 3.
Proof. split; [simpl; lia | reflexivity]. Qed.

(** C8, amended: for a subset of distinct indices below [N], the step
    fails, with an index-out-of-range error, exactly when [N] equals the
    size of the subset; for any larger [N] it yields an index below [N]
    that the subset does not contain. *)
Theorem target_index_fails_iff_exhausted (n : nat) (c : list nat) :
  NoDup c → (∀ i, i ∈ c → (i < n)%nat) →
  (target_index n c = inl IndexError ↔ n = length c)
  ∧ (n ≠ length c →
     ∃ t, target_index n c = inr t ∧ (t < n)%nat ∧ t ∉ c).
Proof.
  intros Hnd Hlt.
  pose proof (range_minus_length n c Hnd Hlt) as Hlen.
  unfold target_index, getitem in *.
  destruct (Py.range_minus n c) as [|t rest] eqn:Hdiff; simpl in *.
  - split; [split; [lia | done] | lia].
  - assert (t ∈ Py.range_minus n c) as Hin by (rewrite Hdiff; left).
    apply elem_of_range_minus in Hin as [Ht Hni].
    split; [split; [done | lia] | eauto].
Qed.

Lemma target_index_fails_iff_exhausted_witness :
  ∃ t, target_index 5 [0; 1; 2] = inr t ∧ (t < 5)%nat ∧ (t ∉ [0; 1; 2]).
Proof.
  apply (target_index_fails_iff_exhausted 5 [0; 1; 2]).
  - compute_done.
  - intros i Hi. set_unfold. lia.
  - simpl. lia.
Defined.

(** ** The experiment runner *)

Section Runner.

Variable json_loads : string → exn + json.
Variable json_dumps : json → string.
Variable generate_content :
  list GenerateRequest → GenerateRequest → exn + GenerateContentResponse.

Local Abbreviation run := (run_experiment json_loads json_dumps generate_content).

Ltac run_experiment_steps :=
  unfold run_experiment, try_except, run_experiment_body,
    client_generate_content, write_prediction, write_metadata, print, lift,
    mbind, M_bind, after_call, running_line, generation_request,
    metadata_json in *;
  cbn [data_dir predictions metadata stdout requests] in *.

(** An experiment sends one request, whatever else happens. *)
Lemma run_experiment_sends
    (model_name : string) (messages : list Content)
    (image_name strategy : string) (budget : Z) (w : World) :
  requests (run model_name messages image_name strategy budget w).2
  = requests w ++ [generation_request model_name messages budget].
Proof.
  run_experiment_steps.
  destruct (generate_content _ _) as [e|reply]; [done|].
  destruct (Py.truthy _); [|done].
  destruct (json_loads _); done.
Qed.

(** An experiment never touches the data directory. *)
Lemma run_experiment_data_dir
    (model_name : string) (messages : list Content)
    (image_name strategy : string) (budget : Z) (w : World) :
  data_dir (run model_name messages image_name strategy budget w).2
  = data_dir w.
Proof.
  run_experiment_steps.
  destruct (generate_content _ _) as [e|reply]; [done|].
  destruct (Py.truthy _); [|done].
  destruct (json_loads _); done.
Qed.

(** C4: when the service answers with a non-empty text that the codec
    parses, the runner leaves the world changed in exactly two files, both
    named by [build_output_filename] from the experiment identity: the
    prediction file holds the dump of the parsed value and the metadata
    file the dump of an object with the four counts under their four
    names, as received. *)
Theorem run_experiment_saves
    (model_name : string) (messages : list Content)
    (image_name strategy : string) (budget : Z) (w : World)
    (reply : GenerateContentResponse) (text : string) (parsed : json) :
  generate_content (requests w) (generation_request model_name messages budget)
    = inr reply →
  response_text reply = Some text → text ≠ "" →
  json_loads text = inr parsed →
  let name := build_output_filename image_name model_name strategy budget "" in
  run model_name messages image_name strategy budget w
  = (inr tt,
     {| data_dir := data_dir w;
        predictions := <[name := json_dumps parsed]> (predictions w);
        metadata :=
          <[name := json_dumps
                      (JObject
                         [ ("candidates_token_count",
                             JInt (candidates_token_count (usage_metadata reply)));
                           ("thoughts_token_count",
                             JInt (thoughts_token_count (usage_metadata reply)));
                           ("prompt_token_count",
                             JInt (prompt_token_count (usage_metadata reply)));
                           ("total_token_count",
                             JInt (total_token_count (usage_metadata reply))) ])]>
            (metadata w);
        stdout := stdout w ++ [ running_line image_name strategy budget;
                                "  ✓ Saved: " +:+ name ];
        requests := requests w
                    ++ [generation_request model_name messages budget] |}).
Proof.
  intros Hreply Htext Hne Hparsed name. run_experiment_steps.
  rewrite Hreply, Htext. destruct text as [|c text]; [done|]. simpl.
  rewrite Hparsed. subst name. cbn. by rewrite <- !app_assoc.
Qed.

(** C6: when the service answers with no text or an empty text, the
    runner prints the empty-response line after its progress line, prints
    no error, writes no file and returns normally. *)
Theorem run_experiment_empty_response
    (model_name : string) (messages : list Content)
    (image_name strategy : string) (budget : Z) (w : World)
    (reply : GenerateContentResponse) :
  generate_content (requests w) (generation_request model_name messages budget)
    = inr reply →
  response_text reply = None ∨ response_text reply = Some "" →
  run model_name messages image_name strategy budget w
  = (inr tt,
     after_call w (generation_request model_name messages budget)
       [ running_line image_name strategy budget; "  ✗ Empty response" ]).
Proof.
  intros Hreply Htext. run_experiment_steps. rewrite Hreply.
  destruct Htext as [-> | ->]; cbn; by rewrite <- !app_assoc.
Qed.

#[local] Set Warnings "-inexact-float".

(** C7: the one request an experiment sends asks for JSON output at
    temperature 0.9; it carries no thinking configuration when the budget
    is 0 and a thinking configuration with that budget when the budget is
    positive. *)
Theorem run_experiment_request_config
    (model_name : string) (messages : list Content)
    (image_name strategy : string) (budget : Z) (w : World) :
  ∃ req,
    requests (run model_name messages image_name strategy budget w).2
    = requests w ++ [req]
    ∧ model req = model_name ∧ contents req = messages
    ∧ response_mime_type (config req) = "application/json"
    ∧ temperature (config req) = 0.9%float
    ∧ (budget = 0%Z → thinking_config (config req) = None)
    ∧ ((0 < budget)%Z →
       thinking_config (config req) = Some {| thinking_budget := budget |}).
Proof.
  exists (generation_request model_name messages budget).
  split; [apply run_experiment_sends|].
  unfold generation_request. cbn.
  split_and!; try done.
  - by intros ->.
  - intros Hpos. destruct (Z.gtb_spec budget 0); [done | lia].
Qed.

#[local] Set Warnings "inexact-float".

End Runner.

(** The stub scenarios of the spec, run through the theorems above. *)

Lemma run_experiment_saves_witness :
  run_experiment Stub.json_loads Stub.json_dumps
    (Stub.service (inr Stub.valid_reply))
    "models/gemini-2.5-flash-lite" Stub.conversation "A.jpg" "zeroshot" 0
    Stub.empty_world
  = (inr tt,
     {| data_dir := ∅;
        predictions :=
          <["A__gemini-2.5-flash-lite__zeroshot__thinking0.json" :=
              Stub.json_dumps (JObject [("a", JInt 1)])]> ∅;
        metadata :=
          <["A__gemini-2.5-flash-lite__zeroshot__thinking0.json" :=
              Stub.json_dumps
                (JObject [ ("candidates_token_count", JInt 10);
                           ("thoughts_token_count", JInt 5);
                           ("prompt_token_count", JInt 20);
                           ("total_token_count", JInt 35) ])]> ∅;
        stdout :=
          [ "  Running zeroshot (thinking=0) on A.jpg...";
            "  ✓ Saved: A__gemini-2.5-flash-lite__zeroshot__thinking0.json" ];
        requests :=
          [ generation_request "models/gemini-2.5-flash-lite"
              Stub.conversation 0 ] |}).
Proof.
  exact (run_experiment_saves Stub.json_loads Stub.json_dumps
           (Stub.service (inr Stub.valid_reply))
           "models/gemini-2.5-flash-lite" Stub.conversation "A.jpg" "zeroshot" 0
           Stub.empty_world Stub.valid_reply Stub.valid_text
           (JObject [("a", JInt 1)])
           eq_refl eq_refl ltac:(done) eq_refl).
Defined.

Lemma run_experiment_empty_response_witness :
  run_experiment Stub.json_loads Stub.json_dumps
    (Stub.service (inr Stub.empty_reply))
    "models/gemini-2.5-flash-lite" Stub.conversation "A.jpg" "fewshot" 2000
    Stub.empty_world
  = (inr tt,
     {| data_dir := ∅; predictions := ∅; metadata := ∅;
        stdout := [ "  Running fewshot (thinking=2000) on A.jpg...";
                    "  ✗ Empty response" ];
        requests :=
          [ generation_request "models/gemini-2.5-flash-lite"
              Stub.conversation 2000 ] |}).
Proof.
  exact (run_experiment_empty_response Stub.json_loads Stub.json_dumps
           (Stub.service (inr Stub.empty_reply))
           "models/gemini-2.5-flash-lite" Stub.conversation "A.jpg" "fewshot"
           2000 Stub.empty_world Stub.empty_reply eq_refl (or_intror eq_refl)).
Defined.

Lemma run_experiment_request_config_witness :
  ∃ req,
    requests
      (run_experiment Stub.json_loads Stub.json_dumps
         (Stub.service (inr Stub.valid_reply))
         "models/gemini-2.5-flash-lite" Stub.conversation "A.jpg" "fewshot"
         2000 Stub.empty_world).2
    = [req]
    ∧ response_mime_type (config req) = "application/json"
    ∧ thinking_config (config req) = Some {| thinking_budget := 2000 |}.
Proof.
  destruct (run_experiment_request_config Stub.json_loads Stub.json_dumps
              (Stub.service (inr Stub.valid_reply))
              "models/gemini-2.5-flash-lite" Stub.conversation "A.jpg"
              "fewshot" 2000 Stub.empty_world)
    as (req & Hsent & _ & _ & Hmime & _ & _ & Hpos).
  exists req. split_and!; [exact Hsent | exact Hmime | apply Hpos; lia].
Defined.

(** How the stub codec lays out the two files of the first scenario. *)
Example stub_prediction_text :
  Stub.json_dumps (JObject [("a", JInt 1)])
  = "{" +:+ Py.nl +:+ "    " +:+ Py.dq +:+ "a" +:+ Py.dq +:+ ": 1" +:+ Py.nl +:+ "}".
Proof. reflexivity. Qed.

Example stub_metadata_text :
  Stub.json_dumps (metadata_json Stub.usage)
  = "{" +:+ Py.nl
    +:+ "    " +:+ Py.dq +:+ "candidates_token_count" +:+ Py.dq +:+ ": 10," +:+ Py.nl
    +:+ "    " +:+ Py.dq +:+ "thoughts_token_count" +:+ Py.dq +:+ ": 5," +:+ Py.nl
    +:+ "    " +:+ Py.dq +:+ "prompt_token_count" +:+ Py.dq +:+ ": 20," +:+ Py.nl
    +:+ "    " +:+ Py.dq +:+ "total_token_count" +:+ Py.dq +:+ ": 35" +:+ Py.nl
    +:+ "}".
Proof. reflexivity. Qed.

Example stub_loads_valid :
  Stub.json_loads Stub.valid_text = inr (JObject [("a", JInt 1)]).
Proof. reflexivity. Qed.

Example stub_loads_malformed :
  Stub.json_loads "{not json" = inl Stub.JSONDecodeError.
Proof. reflexivity. Qed.

(** ** The experiment runner on a disk that can fail *)

Section RunnerDisk.

Variable json_loads : string → exn + json.
Variable json_dumps : json → string.
Variable generate_content :
  list GenerateRequest → GenerateRequest → exn + GenerateContentResponse.
Variable disk : World → Disk.directory → string → string → Disk.write_result.

Local Abbreviation run_on_disk :=
  (Disk.run_experiment json_loads json_dumps generate_content disk).

Ltac disk_steps :=
  unfold Disk.run_experiment, try_except, Disk.run_experiment_body,
    client_generate_content, Disk.write_prediction, Disk.write_metadata,
    Disk.write, print, lift, mbind, M_bind, after_call, running_line,
    generation_request, metadata_json in *;
  cbn [data_dir predictions metadata stdout requests] in *.

(** An experiment ends in one of three ways: it wrote nothing; it wrote
    to its prediction file only; or it wrote to its prediction file and
    then to its metadata file.  Each time it sent its request, printed two
    lines and returned normally. *)
Lemma disk_run_experiment_outcome
    (model_name : string) (messages : list Content)
    (image_name strategy : string) (budget : Z) (w : World) :
  let req := generation_request model_name messages budget in
  let name := build_output_filename image_name model_name strategy budget "" in
  let lines line := [running_line image_name strategy budget; line] in
  (∃ line,
     run_on_disk model_name messages image_name strategy budget w
     = (inr tt, after_call w req (lines line)))
  ∨ (∃ line prediction,
       run_on_disk model_name messages image_name strategy budget w
       = (inr tt,
          Disk.store Disk.predictions_dir name prediction
            (after_call w req (lines line))))
  ∨ (∃ line prediction usage,
       run_on_disk model_name messages image_name strategy budget w
       = (inr tt,
          Disk.store Disk.metadata_dir name usage
            (Disk.store Disk.predictions_dir name prediction
               (after_call w req (lines line))))).
Proof.
  intros req name lines. subst req name lines. disk_steps.
  destruct (generate_content _ _) as [e|reply]; cbn.
  { left. eexists. by rewrite <- !app_assoc. }
  destruct (Py.truthy _); cbn; [|left; eexists; by rewrite <- !app_assoc].
  destruct (json_loads _) as [e|parsed]; cbn.
  { left. eexists. by rewrite <- !app_assoc. }
  destruct (disk _ Disk.predictions_dir _ _) as [|e|e kept]; cbn.
  - destruct (disk _ Disk.metadata_dir _ _) as [|e|e kept]; cbn.
    + right; right. eexists _, _, _. by rewrite <- !app_assoc.
    + right; left. eexists _, _. by rewrite <- !app_assoc.
    + right; right. eexists _, _, _. by rewrite <- !app_assoc.
  - left. eexists. by rewrite <- !app_assoc.
  - right; left. eexists _, _. by rewrite <- !app_assoc.
Qed.

(** C5, amended: whatever the service, the codec and the disk do, the
    runner returns normally.  When the call raises, when the text it
    returns is non-empty and the codec refuses it, or when the prediction
    file cannot be opened, the runner prints the error and writes no file.
    When a write fails after that, the runner prints the error as well,
    and what reached the disk stays: the part of the prediction that was
    written, or the whole prediction with no metadata file, or with the
    part of it that was written. *)
Theorem run_experiment_logs_and_returns
    (model_name : string) (messages : list Content)
    (image_name strategy : string) (budget : Z) (w : World) :
  let req := generation_request model_name messages budget in
  let name := build_output_filename image_name model_name strategy budget "" in
  let started := after_call w req [running_line image_name strategy budget] in
  let logged e :=
    after_call w req [ running_line image_name strategy budget;
                       "  ✗ Error: " +:+ exn_text e ] in
  (∃ w', run_on_disk model_name messages image_name strategy budget w
         = (inr tt, w'))
  ∧ (∀ e, generate_content (requests w) req = inl e →
       run_on_disk model_name messages image_name strategy budget w
       = (inr tt, logged e))
  ∧ (∀ reply text,
       generate_content (requests w) req = inr reply →
       response_text reply = Some text → text ≠ "" →
       (∀ e, json_loads text = inl e →
          run_on_disk model_name messages image_name strategy budget w
          = (inr tt, logged e))
       ∧ (∀ parsed, json_loads text = inr parsed →
            let prediction := json_dumps parsed in
            let usage := json_dumps (metadata_json (usage_metadata reply)) in
            let saved :=
              Disk.store Disk.predictions_dir name prediction started in
            (∀ e, disk started Disk.predictions_dir name prediction
                  = Disk.Refused e →
               run_on_disk model_name messages image_name strategy budget w
               = (inr tt, logged e))
            ∧ (∀ e kept, disk started Disk.predictions_dir name prediction
                         = Disk.Cut e kept →
                 run_on_disk model_name messages image_name strategy budget w
                 = (inr tt,
                    Disk.store Disk.predictions_dir name kept (logged e)))
            ∧ (disk started Disk.predictions_dir name prediction
               = Disk.Written →
               (∀ e, disk saved Disk.metadata_dir name usage = Disk.Refused e →
                  run_on_disk model_name messages image_name strategy budget w
                  = (inr tt,
                     Disk.store Disk.predictions_dir name prediction
                       (logged e)))
               ∧ (∀ e kept, disk saved Disk.metadata_dir name usage
                            = Disk.Cut e kept →
                    run_on_disk model_name messages image_name strategy
                      budget w
                    = (inr tt,
                       Disk.store Disk.metadata_dir name kept
                         (Disk.store Disk.predictions_dir name prediction
                            (logged e))))))).
Proof.
  intros req name started logged. split_and!.
  - destruct (disk_run_experiment_outcome model_name messages image_name
                strategy budget w)
      as [[line ->]|[(line & p & ->)|(line & p & u & ->)]]; by eexists.
  - intros e He. subst req name started logged. disk_steps. rewrite He. cbn.
    by rewrite <- !app_assoc.
  - intros reply text Hreply Htext Hne. split.
    { intros e He. subst req name started logged. disk_steps.
      rewrite Hreply, Htext. destruct text as [|c text]; [done|]. simpl.
      rewrite He. cbn. by rewrite <- !app_assoc. }
    intros parsed Hparsed prediction usage saved.
    subst req name started logged prediction usage saved.
    unfold Disk.store in *. disk_steps.
    rewrite Hreply, Htext. destruct text as [|c text]; [done|]. simpl.
    rewrite Hparsed. cbn. split_and!.
    + intros e ->. cbn. by rewrite <- !app_assoc.
    + intros e kept ->. cbn. by rewrite <- !app_assoc.
    + intros ->. cbn. split.
      * intros e ->. cbn. by rewrite <- !app_assoc.
      * intros e kept ->. cbn. by rewrite <- !app_assoc.
Qed.

End RunnerDisk.

(** C5 as stated does not hold: an exception raised once the prediction
    file is written is caught and logged like any other, and the file
    stays.  Here the service answers with the valid text and the metadata
    directory cannot be written to: the runner prints the error, returns
    normally, and leaves the prediction file of its identity with no
    metadata file. *)
Lemma run_experiment_leaves_prediction :
  Disk.run_experiment Stub.json_loads Stub.json_dumps
    (Stub.service (inr Stub.valid_reply)) Disk.metadata_denied
    "models/gemini-2.5-flash-lite" Stub.conversation "A.jpg" "zeroshot" 0
    Stub.empty_world
  = (inr tt,
     {| data_dir := ∅;
        predictions :=
          <["A__gemini-2.5-flash-lite__zeroshot__thinking0.json" :=
              Stub.json_dumps (JObject [("a", JInt 1)])]> ∅;
        metadata := ∅;
        stdout := [ "  Running zeroshot (thinking=0) on A.jpg...";
                    "  ✗ Error: [Errno 13] Permission denied" ];
        requests :=
          [ generation_request "models/gemini-2.5-flash-lite"
              Stub.conversation 0 ] |}).
Proof. reflexivity. Qed.

(** The malformed text of the spec's second stub scenario, and the valid
    text on a disk that fills up while the metadata file is written. *)
Lemma run_experiment_logs_and_returns_witness :
  Disk.run_experiment Stub.json_loads Stub.json_dumps
    (Stub.service (inr Stub.malformed_reply)) Disk.sound
    "models/gemini-2.5-flash-lite" Stub.conversation "A.jpg" "zeroshot" 0
    Stub.empty_world
  = (inr tt,
     {| data_dir := ∅; predictions := ∅; metadata := ∅;
        stdout := [ "  Running zeroshot (thinking=0) on A.jpg...";
                    "  ✗ Error: Expecting value" ];
        requests :=
          [ generation_request "models/gemini-2.5-flash-lite"
              Stub.conversation 0 ] |})
  ∧ Disk.run_experiment Stub.json_loads Stub.json_dumps
      (Stub.service (inr Stub.valid_reply)) Disk.metadata_cut
      "models/gemini-2.5-flash-lite" Stub.conversation "A.jpg" "zeroshot" 0
      Stub.empty_world
    = (inr tt,
       {| data_dir := ∅;
          predictions :=
            <["A__gemini-2.5-flash-lite__zeroshot__thinking0.json" :=
                Stub.json_dumps (JObject [("a", JInt 1)])]> ∅;
          metadata :=
            <["A__gemini-2.5-flash-lite__zeroshot__thinking0.json" := "{"]> ∅;
          stdout := [ "  Running zeroshot (thinking=0) on A.jpg...";
                      "  ✗ Error: [Errno 28] No space left on device" ];
          requests :=
            [ generation_request "models/gemini-2.5-flash-lite"
                Stub.conversation 0 ] |}).
Proof.
  split.
  - exact (proj1 (proj2 (proj2
             (run_experiment_logs_and_returns Stub.json_loads Stub.json_dumps
                (Stub.service (inr Stub.malformed_reply)) Disk.sound
                "models/gemini-2.5-flash-lite" Stub.conversation "A.jpg"
                "zeroshot" 0 Stub.empty_world))
             Stub.malformed_reply "{not json" eq_refl eq_refl ltac:(done))
             Stub.JSONDecodeError eq_refl).
  - exact (proj2 (proj2 (proj2 (proj2 (proj2 (proj2
             (run_experiment_logs_and_returns Stub.json_loads Stub.json_dumps
                (Stub.service (inr Stub.valid_reply)) Disk.metadata_cut
                "models/gemini-2.5-flash-lite" Stub.conversation "A.jpg"
                "zeroshot" 0 Stub.empty_world))
             Stub.valid_reply Stub.valid_text eq_refl eq_refl ltac:(done))
             (JObject [("a", JInt 1)]) eq_refl)) eq_refl)
             (Exn "OSError" "[Errno 28] No space left on device") "{" eq_refl).
Defined.

(** ** The message builder *)

Section Builder.

Variable json_loads : string → exn + json.
Variable json_dumps : json → string.

Lemma fewshot_examples_ready
    (images : list string) (image_parts : gmap string Part) (prompt_part : Part)
    (example_indices : list nat) (examples : list (Part * json))
    (messages : list Content) (w : World) :
  Forall2 (λ idx ex, example_ready json_loads (data_dir w) images image_parts
                       idx ex.1 ex.2)
    example_indices examples →
  fewshot_examples json_loads json_dumps images image_parts prompt_part
    example_indices messages w
  = (inr (messages
          ++ flat_map (λ ex, [ {| role := "user"; parts := [ex.1; prompt_part] |};
                               {| role := "model";
                                  parts := [Part_text (json_dumps ex.2)] |} ])
               examples),
     w).
Proof.
  intros Hready. revert messages.
  induction Hready as [|idx [part gt] idxs exs Hex _ IH]; intros messages.
  - simpl. unfold mret, M_ret. by rewrite app_nil_r.
  - destruct Hex as (name & text & Hname & Hpart & Hfile & Hgt).
    cbn [fewshot_examples flat_map fst snd].
    unfold load_ground_truth.
    unfold mbind, M_bind, lift, getitem, dict_getitem, read_data.
    rewrite Hname; cbv beta iota. rewrite Hfile; cbv beta iota.
    rewrite Hgt; cbv beta iota. rewrite Hpart; cbv beta iota.
    rewrite IH. by rewrite <- app_assoc.
Qed.

(** C2: with three examples ready and the target image uploaded, the
    few-shot conversation is the seven turns user, model, user, model,
    user, model, user: for each example index in the order given, a user
    turn with the example image and the prompt and a model turn with the
    dump of its ground truth, then a user turn with the target image and
    the prompt; the zero-shot conversation is that last turn alone. *)
Theorem conversations_seven_and_one_turns
    (images : list string) (image_parts : gmap string Part) (prompt_part : Part)
    (i1 i2 i3 : nat) (target_image : string) (w : World)
    (p1 p2 p3 target_part : Part) (gt1 gt2 gt3 : json) :
  example_ready json_loads (data_dir w) images image_parts i1 p1 gt1 →
  example_ready json_loads (data_dir w) images image_parts i2 p2 gt2 →
  example_ready json_loads (data_dir w) images image_parts i3 p3 gt3 →
  image_parts !! target_image = Some target_part →
  messages_fewshot json_loads json_dumps images image_parts prompt_part
    [i1; i2; i3] target_image w
  = (inr [ {| role := "user"; parts := [p1; prompt_part] |};
           {| role := "model"; parts := [Part_text (json_dumps gt1)] |};
           {| role := "user"; parts := [p2; prompt_part] |};
           {| role := "model"; parts := [Part_text (json_dumps gt2)] |};
           {| role := "user"; parts := [p3; prompt_part] |};
           {| role := "model"; parts := [Part_text (json_dumps gt3)] |};
           {| role := "user"; parts := [target_part; prompt_part] |} ],
     w)
  ∧ messages_zeroshot image_parts prompt_part target_image w
    = (inr [ {| role := "user"; parts := [target_part; prompt_part] |} ], w).
Proof.
  intros H1 H2 H3 Htarget. split.
  - unfold messages_fewshot, mbind, M_bind.
    rewrite (fewshot_examples_ready images image_parts prompt_part
               [i1; i2; i3] [(p1, gt1); (p2, gt2); (p3, gt3)]) by
      (repeat constructor; done).
    unfold lift, dict_getitem. by rewrite Htarget.
  - unfold messages_zeroshot, mbind, M_bind, lift, dict_getitem.
    by rewrite Htarget.
Qed.

End Builder.

Lemma conversations_seven_and_one_turns_witness :
  messages_fewshot Stub.json_loads Stub.json_dumps IMAGE_FILES
    Stub.image_parts Stub.prompt_part [0; 1; 3]
    "NL-UtHUA_A376079_000005_l.jpg" Stub.world
  = (inr [ {| role := "user";
              parts := [ Stub.uploaded "NL-UtHUA_A376076_000033_l.jpg";
                         Stub.prompt_part ] |};
           {| role := "model";
              parts := [ Part_text (Stub.json_dumps (JArray [JInt 33; JInt 1])) ] |};
           {| role := "user";
              parts := [ Stub.uploaded "NL-UtHUA_A376076_000033_r.jpg";
                         Stub.prompt_part ] |};
           {| role := "model";
              parts := [ Part_text (Stub.json_dumps (JArray [JInt 33; JInt 2])) ] |};
           {| role := "user";
              parts := [ Stub.uploaded "NL-UtHUA_A376079_000005_r.jpg";
                         Stub.prompt_part ] |};
           {| role := "model";
              parts := [ Part_text (Stub.json_dumps (JArray [JInt 5; JInt 2])) ] |};
           {| role := "user";
              parts := [ Stub.uploaded "NL-UtHUA_A376079_000005_l.jpg";
                         Stub.prompt_part ] |} ],
     Stub.world)
  ∧ messages_zeroshot Stub.image_parts Stub.prompt_part
      "NL-UtHUA_A376079_000005_l.jpg" Stub.world
    = (inr [ {| role := "user";
                parts := [ Stub.uploaded "NL-UtHUA_A376079_000005_l.jpg";
                           Stub.prompt_part ] |} ],
       Stub.world).
Proof.
  apply (conversations_seven_and_one_turns Stub.json_loads Stub.json_dumps
           IMAGE_FILES Stub.image_parts Stub.prompt_part 0 1 3).
  - by eexists _, _; split_and!; reflexivity.
  - by eexists _, _; split_and!; reflexivity.
  - by eexists _, _; split_and!; reflexivity.
  - reflexivity.
Defined.

(** ** Rules of the postcondition logic *)

Section Rules.

Context (d : gmap string string) (P : GenerateRequest → Prop).

Lemma ensures_ret {A} (Q : A → Prop) (x : A) : Q x → ensures d P Q (mret x).
Proof.
  intros HQ w Hd. cbn. split_and!; [done | | by intros ? [= <-]].
  exists []. by rewrite app_nil_r.
Qed.

Lemma ensures_bind {A B} (Q : A → Prop) (R : B → Prop)
    (m : M A) (f : A → M B) :
  ensures d P Q m → (∀ x, Q x → ensures d P R (f x)) →
  ensures d P R (m ≫= f).
Proof.
  intros Hm Hf w Hd.
  destruct (Hm w Hd) as (Hd1 & (new1 & Hreq1 & HP1) & HQ).
  unfold mbind, M_bind. destruct (m w) as [[e|x] w1]; simpl in *.
  - split_and!; [done | eauto | done].
  - destruct (Hf x (HQ x eq_refl) w1 Hd1) as (Hd2 & (new2 & Hreq2 & HP2) & HR).
    split_and!; [done | | done].
    exists (new1 ++ new2). rewrite Hreq2, Hreq1, app_assoc.
    split; [done|]. by apply Forall_app.
Qed.

Lemma ensures_weaken {A} (Q Q' : A → Prop) (m : M A) :
  (∀ x, Q x → Q' x) → ensures d P Q m → ensures d P Q' m.
Proof.
  intros HQ Hm w Hd. destruct (Hm w Hd) as (? & ? & Hpost).
  split_and!; [done..|]. intros x Hx. by apply HQ, Hpost.
Qed.

Lemma ensures_lift {A} (r : exn + A) : ensures d P (λ x, r = inr x) (lift r).
Proof.
  intros w Hd. cbn. split_and!; [done | | done].
  exists []. by rewrite app_nil_r.
Qed.

Lemma ensures_print (line : string) : ensures d P (λ _, True) (print line).
Proof.
  intros w Hd. cbn. split_and!; [done | | done].
  exists []. by rewrite app_nil_r.
Qed.

Lemma ensures_read_data (path : string) :
  ensures d P (λ s, d !! path = Some s) (read_data path).
Proof.
  intros w Hd. unfold read_data. subst d.
  destruct (data_dir w !! path) as [s|]; cbn;
    (split_and!; [done | exists []; by rewrite app_nil_r |]); by intros ? [= <-].
Qed.

Lemma ensures_for_each {A} (xs : list A) (body : A → M unit) :
  (∀ x, x ∈ xs → ensures d P (λ _, True) (body x)) →
  ensures d P (λ _, True) (for_each xs body).
Proof.
  induction xs as [|x xs IH]; intros Hbody; simpl.
  - by apply ensures_ret.
  - apply ensures_bind with (Q := λ _, True).
    + apply Hbody. left.
    + intros _ _. apply IH. intros y Hy. apply Hbody. by right.
Qed.

End Rules.

(** ** The whole script *)

Lemma zeroshot_shape_turns (prompt_part : Part) (messages : list Content) :
  zeroshot_shape prompt_part messages →
  length messages = 1
  ∧ ∀ turn, turn ∈ messages → role turn = "user" →
      ∃ image_part, parts turn = [image_part; prompt_part].
Proof.
  intros [target_part ->]. split; [done|].
  intros turn ->%list_elem_of_singleton _. by eexists.
Qed.

Lemma fewshot_shape_turns (prompt_part : Part) (k : nat)
    (messages : list Content) :
  fewshot_shape prompt_part k messages →
  length messages = 2 * k + 1
  ∧ ∀ turn, turn ∈ messages → role turn = "user" →
      ∃ image_part, parts turn = [image_part; prompt_part].
Proof.
  intros (examples & target_part & <- & ->). split.
  - rewrite length_app. simpl.
    induction examples as [|ex examples IH]; simpl; lia.
  - intros turn Hturn Hrole. apply elem_of_app in Hturn as [Hturn|Hturn].
    + apply list_elem_of_In, in_flat_map in Hturn as (ex & _ & Hin).
      destruct Hin as [<- | [<- | []]]; [by eexists | done].
    + apply list_elem_of_singleton in Hturn as ->. by eexists.
Qed.

Section Script.

Variable json_loads : string → exn + json.
Variable json_dumps : json → string.
Variable files_upload : string → exn + FileData.
Variable generate_content :
  list GenerateRequest → GenerateRequest → exn + GenerateContentResponse.
Variable BASE_DIR : string.

Context (d : gmap string string) (P : GenerateRequest → Prop).

Lemma run_experiment_ensures
    (model_name : string) (messages : list Content)
    (image_name strategy : string) (budget : Z) :
  P (generation_request model_name messages budget) →
  ensures d P (λ _, True)
    (run_experiment json_loads json_dumps generate_content
       model_name messages image_name strategy budget).
Proof.
  intros HP w Hd. split_and!; [| |done].
  - by rewrite run_experiment_data_dir.
  - eexists. split; [apply run_experiment_sends|]. by apply Forall_singleton.
Qed.

Lemma load_ground_truth_ensures (image_name : string) :
  ensures d P (λ _, True) (load_ground_truth json_loads image_name).
Proof.
  unfold load_ground_truth.
  eapply ensures_bind; [apply ensures_read_data|]. intros s _.
  eapply ensures_weaken; [|apply ensures_lift]. done.
Qed.

Lemma upload_all_ensures (images : list string)
    (image_parts : gmap string Part) :
  ensures d P (λ _, True) (upload_all files_upload images image_parts).
Proof.
  revert image_parts. induction images as [|image_file rest IH];
    intros image_parts; simpl.
  - by apply ensures_ret.
  - eapply ensures_bind with (Q := λ _, True); [|intros part _; apply IH].
    unfold upload_image.
    eapply ensures_bind; [apply ensures_lift|]. intros file _.
    eapply ensures_bind; [apply ensures_print|]. intros _ _.
    by apply ensures_ret.
Qed.

Lemma fewshot_examples_ensures
    (images : list string) (image_parts : gmap string Part) (prompt_part : Part)
    (example_indices : list nat) (messages : list Content) :
  ensures d P
    (λ result, ∃ examples,
       length examples = length example_indices
       ∧ result = messages ++ flat_map (example_turns prompt_part) examples)
    (fewshot_examples json_loads json_dumps images image_parts prompt_part
       example_indices messages).
Proof.
  revert messages. induction example_indices as [|idx rest IH];
    intros messages; simpl.
  - apply ensures_ret. exists []. by rewrite app_nil_r.
  - eapply ensures_bind; [apply ensures_lift|]. intros example_image _.
    eapply ensures_bind; [apply load_ground_truth_ensures|].
    intros gt_response _.
    eapply ensures_bind; [apply ensures_lift|]. intros example_part _.
    eapply ensures_weaken; [|apply IH].
    intros result (examples & Hlen & ->).
    exists ((example_part, json_dumps gt_response) :: examples).
    split; [simpl; by rewrite Hlen|]. by rewrite <- app_assoc.
Qed.

Lemma messages_fewshot_ensures
    (images : list string) (image_parts : gmap string Part) (prompt_part : Part)
    (example_indices : list nat) (target_image : string) :
  ensures d P (fewshot_shape prompt_part (length example_indices))
    (messages_fewshot json_loads json_dumps images image_parts prompt_part
       example_indices target_image).
Proof.
  unfold messages_fewshot.
  eapply ensures_bind; [apply fewshot_examples_ensures|].
  intros messages (examples & Hlen & ->).
  eapply ensures_bind; [apply ensures_lift|]. intros target_part _.
  apply ensures_ret. by exists examples, target_part.
Qed.

Lemma messages_zeroshot_ensures
    (image_parts : gmap string Part) (prompt_part : Part)
    (target_image : string) :
  ensures d P (zeroshot_shape prompt_part)
    (messages_zeroshot image_parts prompt_part target_image).
Proof.
  unfold messages_zeroshot.
  eapply ensures_bind; [apply ensures_lift|]. intros target_part _.
  apply ensures_ret. by exists target_part.
Qed.

(** If the well-formed requests around [prompt_part] satisfy [P], so does
    everything the loops of the script send. *)
Lemma run_budget_ensures
    (images : list string) (image_parts : gmap string Part) (prompt_part : Part)
    (model_name : string) (example_indices : list nat) (target_image : string)
    (budget : Z) :
  (∀ req, well_formed prompt_part (length example_indices) req → P req) →
  ensures d P (λ _, True)
    (run_budget json_loads json_dumps generate_content images image_parts
       prompt_part model_name example_indices target_image budget).
Proof.
  intros HP. unfold run_budget.
  eapply ensures_bind; [apply messages_fewshot_ensures|]. intros fewshot Hfew.
  eapply ensures_bind with (Q := λ _, True).
  { apply run_experiment_ensures, HP. by right. }
  intros _ _.
  eapply ensures_bind; [apply messages_zeroshot_ensures|]. intros zeroshot Hzero.
  apply run_experiment_ensures, HP. by left.
Qed.

Lemma run_combination_ensures
    (images : list string) (budgets : list Z)
    (image_parts : gmap string Part) (prompt_part : Part)
    (model_name : string) (combination : list nat) :
  (∀ req, well_formed prompt_part (length combination) req → P req) →
  ensures d P (λ _, True)
    (run_combination json_loads json_dumps generate_content images budgets
       image_parts prompt_part model_name combination).
Proof.
  intros HP. unfold run_combination.
  eapply ensures_bind; [apply ensures_lift|]. intros target _.
  eapply ensures_bind; [apply ensures_lift|]. intros target_image _.
  eapply ensures_bind; [apply ensures_print|]. intros _ _.
  apply ensures_for_each. intros budget _. by apply run_budget_ensures.
Qed.

Lemma script_ensures (images models : list string) (budgets : list Z) :
  (∀ prompt req,
     d !! "prompt.txt" = Some prompt →
     well_formed
       (Part_text
          ("Perform the following task using step-by-step reasoning." +:+ prompt))
       3 req →
     P req) →
  ensures d P (λ _, True)
    (script json_loads json_dumps files_upload generate_content BASE_DIR
       images models budgets).
Proof.
  intros HP. unfold script, load_prompt.
  eapply ensures_bind.
  { eapply ensures_bind; [apply ensures_read_data|]. intros prompt Hprompt.
    apply ensures_ret with
      (Q := λ text, ∃ prompt, d !! "prompt.txt" = Some prompt
              ∧ text = "Perform the following task using step-by-step reasoning."
                       +:+ prompt).
    by exists prompt. }
  intros prompt_text (prompt & Hprompt & ->).
  eapply ensures_bind; [apply ensures_print|]. intros _ _.
  eapply ensures_bind; [apply upload_all_ensures|]. intros image_parts _.
  eapply ensures_bind with (Q := λ _, True).
  { apply ensures_for_each. intros model_name _.
    eapply ensures_bind; [apply ensures_print|]. intros _ _.
    eapply ensures_bind; [apply ensures_print|]. intros _ _.
    eapply ensures_bind; [apply ensures_print|]. intros _ _.
    apply ensures_for_each. intros combination Hc.
    apply elem_of_combinations in Hc as [_ Hlen].
    apply run_combination_ensures. rewrite Hlen.
    intros req Hreq. by apply (HP prompt). }
  intros _ _.
  repeat (eapply ensures_bind; [apply ensures_print|]; intros _ _).
  apply ensures_print.
Qed.

End Script.

(** Every request a run sends is a zero-shot conversation or a few-shot
    conversation with three examples, built around the prompt part that
    was loaded at the start; without [prompt.txt] no request is sent. *)
Lemma script_requests_well_formed
    (json_loads : string → exn + json) (json_dumps : json → string)
    (files_upload : string → exn + FileData)
    (generate_content :
       list GenerateRequest → GenerateRequest → exn + GenerateContentResponse)
    (BASE_DIR : string)
    (images models : list string) (budgets : list Z) (w : World) :
  ∃ new,
    requests (script json_loads json_dumps files_upload generate_content
                BASE_DIR images models budgets w).2
    = requests w ++ new
    ∧ ∀ req, req ∈ new →
        ∃ prompt,
          data_dir w !! "prompt.txt" = Some prompt
          ∧ well_formed
              (Part_text
                 ("Perform the following task using step-by-step reasoning."
                  +:+ prompt))
              3 req.
Proof.
  destruct (script_ensures json_loads json_dumps files_upload generate_content
              BASE_DIR (data_dir w)
              (λ req, ∃ prompt,
                 data_dir w !! "prompt.txt" = Some prompt
                 ∧ well_formed
                     (Part_text
                        ("Perform the following task using step-by-step reasoning."
                         +:+ prompt))
                     3 req)
              images models budgets) with w as (_ & (new & Hreq & Hnew) & _).
  - intros prompt req Hprompt Hreq. by exists prompt.
  - done.
  - exists new. split; [done|]. intros req Hin.
    by apply (proj1 (Forall_forall _ _) Hnew).
Qed.

(** C9: in every run of the script, whatever the images, models and
    budgets, each user turn of each conversation sent holds an image part
    followed by one and the same text part: the fixed sentence followed by
    the contents [prompt.txt] had when the run started. *)
Theorem prompt_part_shared
    (json_loads : string → exn + json) (json_dumps : json → string)
    (files_upload : string → exn + FileData)
    (generate_content :
       list GenerateRequest → GenerateRequest → exn + GenerateContentResponse)
    (BASE_DIR : string)
    (images models : list string) (budgets : list Z) (w : World) :
  ∃ new,
    requests (script json_loads json_dumps files_upload generate_content
                BASE_DIR images models budgets w).2
    = requests w ++ new
    ∧ ∀ req, req ∈ new →
        ∃ prompt,
          data_dir w !! "prompt.txt" = Some prompt
          ∧ ∀ turn, turn ∈ contents req → role turn = "user" →
              ∃ image_part,
                parts turn
                = [ image_part;
                    Part_text
                      ("Perform the following task using step-by-step reasoning."
                       +:+ prompt) ].
Proof.
  destruct (script_requests_well_formed json_loads json_dumps files_upload
              generate_content BASE_DIR images models budgets w)
    as (new & Hreq & Hnew).
  exists new. split; [done|]. intros req Hin.
  destruct (Hnew req Hin) as (prompt & Hprompt & [Hzero|Hfew]).
  - exists prompt. split; [done|]. by apply zeroshot_shape_turns.
  - exists prompt. split; [done|]. by eapply fewshot_shape_turns.
Qed.

Lemma prompt_part_shared_witness :
  ∃ new,
    requests (main Stub.json_loads Stub.json_dumps Stub.files_upload
                (Stub.service (inr Stub.valid_reply)) "/repo" Stub.world).2
    = new
    ∧ length new = 16
    ∧ ∀ req turn, req ∈ new → turn ∈ contents req → role turn = "user" →
        ∃ image_part, parts turn = [image_part; Stub.prompt_part].
Proof.
  destruct (prompt_part_shared Stub.json_loads Stub.json_dumps
              Stub.files_upload (Stub.service (inr Stub.valid_reply)) "/repo"
              IMAGE_FILES MODELS THINKING_BUDGETS Stub.world)
    as (new & Hreq & Hnew).
  exists new. split_and!.
  - exact Hreq.
  - apply (f_equal length) in Hreq. vm_compute in Hreq.
    change (16 = length new) in Hreq. by symmetry.
  - intros req turn Hin Hturn Hrole.
    destruct (Hnew req Hin) as (prompt & Hprompt & Hturns).
    vm_compute in Hprompt. injection Hprompt as <-.
    exact (Hturns turn Hturn Hrole).
Defined.

(** Every conversation a run sends has one turn or seven. *)
Lemma script_conversation_lengths
    (json_loads : string → exn + json) (json_dumps : json → string)
    (files_upload : string → exn + FileData)
    (generate_content :
       list GenerateRequest → GenerateRequest → exn + GenerateContentResponse)
    (BASE_DIR : string)
    (images models : list string) (budgets : list Z) (w : World) :
  ∃ new,
    requests (script json_loads json_dumps files_upload generate_content
                BASE_DIR images models budgets w).2
    = requests w ++ new
    ∧ ∀ req, req ∈ new →
        length (contents req) = 1 ∨ length (contents req) = 7.
Proof.
  destruct (script_requests_well_formed json_loads json_dumps files_upload
              generate_content BASE_DIR images models budgets w)
    as (new & Hreq & Hnew).
  exists new. split; [done|]. intros req Hin.
  destruct (Hnew req Hin) as (prompt & _ & [Hzero|Hfew]).
  - left. by apply zeroshot_shape_turns in Hzero as [? _].
  - right. by apply fewshot_shape_turns in Hfew as [? _].
Qed.

(** A complete run against the stubs: sixteen experiments, each saved. *)
Example main_stub_run :
  let run := main Stub.json_loads Stub.json_dumps Stub.files_upload
               (Stub.service (inr Stub.valid_reply)) "/repo" Stub.world in
  run.1 = inr tt
  ∧ length (requests run.2) = 16
  ∧ size (predictions run.2) = 16
  ∧ size (metadata run.2) = 16.
Proof. vm_compute. done. Qed.

(** A run in which every reply is malformed goes on to the end all the
    same, and leaves both directories empty; so does a run in which every
    call raises. *)
Example main_stub_run_failing :
  let malformed := main Stub.json_loads Stub.json_dumps Stub.files_upload
                     (Stub.service (inr Stub.malformed_reply)) "/repo"
                     Stub.world in
  let raising := main Stub.json_loads Stub.json_dumps Stub.files_upload
                   (Stub.service (inl (Exn "ServerError" "503 UNAVAILABLE")))
                   "/repo" Stub.world in
  malformed.1 = inr tt
  ∧ length (requests malformed.2) = 16
  ∧ predictions malformed.2 = ∅ ∧ metadata malformed.2 = ∅
  ∧ raising.1 = inr tt
  ∧ length (requests raising.2) = 16
  ∧ predictions raising.2 = ∅ ∧ metadata raising.2 = ∅.
Proof. vm_compute. done. Qed.

(** * Further properties of the script *)

(** ** More on output naming (lines 91-105) *)

(** [str] of an integer reads back as that integer, so different
    integers print differently. *)
Lemma str_inj (a b : Z) : Py.str a = Py.str b → a = b.
Proof.
  unfold Py.str. intros Heq.
  assert (∀ n, NilZero.int_of_string (NilZero.string_of_int (Z.to_int n))
               = Some (Z.to_int n)) as Hread.
  { intros [|p|p]; [reflexivity | |]; apply NilZero.isi; simpl;
      intros [= Hp]; by apply Unsigned.to_uint_nonnil in Hp. }
  apply DecimalZ.to_int_inj.
  pose proof (Hread a) as Ha. rewrite Heq, Hread in Ha. congruence.
Qed.

Lemma string_app_inj_r (a b s : string) : a +:+ s = b +:+ s → a = b.
Proof.
  intros Heq.
  assert (String.length a = String.length b) as Hlen.
  { apply (f_equal String.length) in Heq.
    rewrite !string_app_length in Heq. lia. }
  revert b Heq Hlen. induction a as [|x a IH]; intros [|y b] Heq Hlen;
    simpl in Hlen; try done.
  rewrite !string_app_cons in Heq. injection Heq as -> Heq.
  f_equal. apply IH; [done | lia].
Qed.

(** Two texts of the same length in front of anything are told apart. *)
Lemma string_app_inj_length (a b x y : string) :
  String.length a = String.length b → a +:+ x = b +:+ y → a = b ∧ x = y.
Proof.
  revert b. induction a as [|c a IH]; intros [|c' b] Hlen Heq;
    simpl in Hlen; try done.
  rewrite !string_app_cons in Heq. injection Heq as -> Heq.
  destruct (IH b) as [-> ->]; [lia | done | done].
Qed.

(** A text without [c] in front of a [c] ends where the first [c] is. *)
Lemma string_app_inj_free (c : ascii) (a b x y : string) :
  free_of c a → free_of c b →
  a +:+ String c x = b +:+ String c y → a = b ∧ x = y.
Proof.
  revert b. induction a as [|c1 a IH]; intros [|c2 b] Ha Hb Heq.
  - by injection Heq as ->.
  - rewrite string_app_cons in Heq. injection Heq as <- _. by destruct Hb.
  - rewrite string_app_cons in Heq. injection Heq as -> _. by destruct Ha.
  - rewrite !string_app_cons in Heq. injection Heq as -> Heq.
    destruct Ha as [_ Ha], Hb as [_ Hb].
    destruct (IH b Ha Hb Heq) as [-> ->]. done.
Qed.

(** X1: for one model, the file name tells the experiments apart: two
    identities whose image base names have the same length and whose
    strategies hold no underscore get the same name only if base name,
    strategy and budget agree. *)
Theorem build_output_filename_inj
    (image1 image2 model_name strategy1 strategy2 : string) (budget1 budget2 : Z) :
  String.length (Py.replace ".jpg" "" image1)
  = String.length (Py.replace ".jpg" "" image2) →
  free_of "_" strategy1 → free_of "_" strategy2 →
  build_output_filename image1 model_name strategy1 budget1 ""
  = build_output_filename image2 model_name strategy2 budget2 "" →
  Py.replace ".jpg" "" image1 = Py.replace ".jpg" "" image2
  ∧ strategy1 = strategy2 ∧ budget1 = budget2.
Proof.
  intros Hlen Hs1 Hs2. unfold build_output_filename. cbn [Py.join].
  rewrite !string_app_assoc. intros Heq.
  apply string_app_inj_length in Heq as [Hbase Heq]; [|done].
  split; [done|].
  do 3 apply String.app_inj in Heq.
  rewrite !(string_app_cons "_" "_") in Heq.
  apply (string_app_inj_free "_") in Heq as [Hs Heq]; [|done..].
  split; [done|].
  do 2 apply String.app_inj in Heq.
  change ("" +:+ ".json") with ".json" in Heq.
  apply string_app_inj_r in Heq. by apply str_inj.
Qed.

Lemma build_output_filename_inj_witness :
  Py.replace ".jpg" "" "NL-UtHUA_A376076_000033_l.jpg"
  = Py.replace ".jpg" "" "NL-UtHUA_A376076_000033_l.jpg"
  ∧ "fewshot" = "fewshot" ∧ 2000%Z = 2000%Z.
Proof.
  apply (build_output_filename_inj
           "NL-UtHUA_A376076_000033_l.jpg" "NL-UtHUA_A376076_000033_l.jpg"
           "models/gemini-2.5-flash-lite" "fewshot" "fewshot" 2000 2000);
    [reflexivity | compute; intuition discriminate
                 | compute; intuition discriminate | reflexivity].
Defined.

Lemma subst_char_app (a b : ascii) (s t : string) :
  subst_char a b (s +:+ t) = subst_char a b s +:+ subst_char a b t.
Proof.
  induction s as [|c s IH]; [done|].
  rewrite string_app_cons. simpl. rewrite string_app_cons. by f_equal.
Qed.

Lemma subst_char_length (a b : ascii) (s : string) :
  String.length (subst_char a b s) = String.length s.
Proof. induction s as [|c s IH]; [done|]. simpl. by f_equal. Qed.

Lemma replace_from_erase_length (old : string) (skip : nat) (s : string) :
  String.length (Py.replace_from old "" skip s) ≤ String.length s.
Proof.
  revert skip. induction s as [|c s IH]; intros skip; [done|].
  cbn [Py.replace_from String.length].
  destruct skip as [|k].
  - destruct (String.prefix old (String c s)).
    + rewrite string_app_nil_l. etrans; [apply IH | lia].
    + cbn [String.length]. specialize (IH 0). lia.
  - etrans; [apply IH | lia].
Qed.

(** X2: the short model name holds no colon, whatever the model name, and
    is never longer than the model name. *)
Theorem model_short_name_safe (model_name : string) :
  free_of ":" (get_model_short_name model_name)
  ∧ String.length (get_model_short_name model_name) ≤ String.length model_name.
Proof.
  unfold get_model_short_name. rewrite (replace_char ":" "-"). split.
  - by apply subst_char_free.
  - rewrite subst_char_length. apply replace_from_erase_length.
Qed.

(** X3: the text [models/] is removed wherever it stands, not only at the
    front of the name: what precedes it (here a text without the letter m)
    and what follows it are joined. *)
Theorem model_short_name_strips_inside (before after : string) :
  free_of "m" before →
  get_model_short_name (before +:+ "models/" +:+ after)
  = subst_char ":" "-" before +:+ get_model_short_name after.
Proof.
  intros Hfree. unfold get_model_short_name.
  rewrite (replace_app_free "m" "odels/" "" before _ Hfree).
  rewrite (replace_at_start "m" "odels/" "" after), string_app_nil_l.
  rewrite !(replace_char ":" "-"). apply subst_char_app.
Qed.

Lemma model_short_name_strips_inside_witness :
  get_model_short_name ("tuned:" +:+ "models/" +:+ "gemini:v1")
  = "tuned-gemini-v1".
Proof.
  apply (model_short_name_strips_inside "tuned:" "gemini:v1").
  compute. intuition discriminate.
Defined.

(** ** More on the combination generator (line 174) *)

Lemma combinations_length {A} (pool : list A) (r : nat) :
  length (Itertools.combinations pool r) = choose (length pool) r.
Proof.
  revert r. induction pool as [|x xs IH]; intros [|r]; simpl; try done.
  by rewrite length_app, length_fmap, !IH.
Qed.

(** Distinct indices below [n] can be listed in increasing order, as a
    subsequence of [range(n)]. *)
Lemma sorted_selection (n : nat) (s : list nat) :
  NoDup s → (∀ i, i ∈ s → i < n) →
  filter (λ i, i ∈ s) (Py.range n) ≡ₚ s
  ∧ filter (λ i, i ∈ s) (Py.range n) `sublist_of` Py.range n.
Proof.
  intros Hnd Hlt. split; [|apply sublist_filter].
  apply NoDup_Permutation; [apply NoDup_filter, NoDup_seq | done |].
  intros i. unfold Py.range. rewrite list_elem_of_filter, elem_of_seq.
  split; [by intros [? _] | intros Hi; split; [done|]].
  specialize (Hlt i Hi). lia.
Qed.

(** X4: for every number [n] of images the generator lists [n] choose 3
    combinations, each made of three distinct indices below [n]; and every
    set of three distinct indices below [n] is the content of exactly one
    of them. *)
Theorem combinations_cover_every_triple (n : nat) :
  let combinations := Itertools.combinations (Py.range n) 3 in
  length combinations = choose n 3
  ∧ (∀ c, c ∈ combinations →
       length c = 3 ∧ NoDup c ∧ ∀ i, i ∈ c → i < n)
  ∧ (∀ s, NoDup s → length s = 3 → (∀ i, i ∈ s → i < n) →
       ∃ c, c ∈ combinations ∧ c ≡ₚ s
            ∧ ∀ c', c' ∈ combinations → c' ≡ₚ s → c' = c).
Proof.
  intros combinations. subst combinations.
  assert (NoDup (Py.range n)) as Hpool by apply NoDup_seq.
  split_and!.
  - rewrite combinations_length. unfold Py.range. by rewrite length_seq.
  - intros c [Hsub Hlen]%elem_of_combinations. split_and!; [done | |].
    + by eapply sublist_NoDup.
    + intros i Hi. eapply elem_of_sublist in Hi; [|done].
      apply elem_of_seq in Hi. lia.
  - intros s Hnd Hlen Hlt.
    destruct (sorted_selection n s Hnd Hlt) as [Hperm Hsub].
    exists (filter (λ i, i ∈ s) (Py.range n)). split_and!.
    + apply elem_of_combinations. split; [done|].
      by rewrite (Permutation_length Hperm).
    + done.
    + intros c' [Hsub' _]%elem_of_combinations Hperm'.
      apply sublist_same_elements with (pool := Py.range n); [done..|].
      intros i. by rewrite Hperm, Hperm'.
Qed.

Lemma combinations_cover_every_triple_witness :
  ∃ c, c ∈ Itertools.combinations (Py.range 5) 3 ∧ c ≡ₚ [4; 0; 2]
       ∧ ∀ c', c' ∈ Itertools.combinations (Py.range 5) 3 →
               c' ≡ₚ [4; 0; 2] → c' = c.
Proof.
  apply (proj2 (proj2 (combinations_cover_every_triple 5))).
  - compute_done.
  - reflexivity.
  - intros i Hi. set_unfold. lia.
Defined.

(** ** More on the experiment runner (lines 108-159) *)

Section RunnerFrame.

Variable json_loads : string → exn + json.
Variable json_dumps : json → string.
Variable generate_content :
  list GenerateRequest → GenerateRequest → exn + GenerateContentResponse.

Local Abbreviation run := (run_experiment json_loads json_dumps generate_content).

Ltac runner_steps :=
  unfold run_experiment, try_except, run_experiment_body,
    client_generate_content, write_prediction, write_metadata, print, lift,
    mbind, M_bind, after_call, running_line, generation_request,
    metadata_json in *;
  cbn [data_dir predictions metadata stdout requests] in *.

(** An experiment ends in one of two ways: it printed a second line and
    wrote nothing, or it wrote its two files and printed the saved line. *)
Lemma run_experiment_outcome
    (model_name : string) (messages : list Content)
    (image_name strategy : string) (budget : Z) (w : World) :
  let req := generation_request model_name messages budget in
  let name := build_output_filename image_name model_name strategy budget "" in
  (∃ line,
     run model_name messages image_name strategy budget w
     = (inr tt, after_call w req [running_line image_name strategy budget; line]))
  ∨ (∃ prediction usage,
       run model_name messages image_name strategy budget w
       = (inr tt,
          {| data_dir := data_dir w;
             predictions := <[name := prediction]> (predictions w);
             metadata := <[name := usage]> (metadata w);
             stdout := stdout w ++ [ running_line image_name strategy budget;
                                     "  ✓ Saved: " +:+ name ];
             requests := requests w ++ [req] |})).
Proof.
  intros req name. subst req name. runner_steps.
  destruct (generate_content _ _) as [e|reply]; cbn.
  { left. eexists. by rewrite <- !app_assoc. }
  destruct (Py.truthy _); cbn; [|left; eexists; by rewrite <- !app_assoc].
  destruct (json_loads _) as [e|parsed]; cbn.
  - left. eexists. by rewrite <- !app_assoc.
  - right. eexists _, _. by rewrite <- !app_assoc.
Qed.

Lemma run_experiment_parsed
    (model_name : string) (messages : list Content)
    (image_name strategy : string) (budget : Z) (w : World)
    (reply : GenerateContentResponse) (text : string) (parsed : json) :
  generate_content (requests w) (generation_request model_name messages budget)
    = inr reply →
  response_text reply = Some text → text ≠ "" →
  json_loads text = inr parsed →
  let name := build_output_filename image_name model_name strategy budget "" in
  let w' := (run model_name messages image_name strategy budget w).2 in
  predictions w' = <[name := json_dumps parsed]> (predictions w)
  ∧ metadata w'
    = <[name := json_dumps (metadata_json (usage_metadata reply))]> (metadata w).
Proof.
  intros Hreply Htext Hne Hparsed name w'. subst name w'. runner_steps.
  rewrite Hreply, Htext. destruct text as [|c text]; [done|]. cbn.
  by rewrite Hparsed.
Qed.

(** X5: whatever the service answers, an experiment leaves the data
    directory and every output file of another name as they were, removes
    no file, and prints exactly two lines, the first being its progress
    line. *)
Theorem run_experiment_frame
    (model_name : string) (messages : list Content)
    (image_name strategy : string) (budget : Z) (w : World) :
  let name := build_output_filename image_name model_name strategy budget "" in
  let w' := (run model_name messages image_name strategy budget w).2 in
  data_dir w' = data_dir w
  ∧ (∀ other, other ≠ name →
       predictions w' !! other = predictions w !! other
       ∧ metadata w' !! other = metadata w !! other)
  ∧ (∀ other, is_Some (predictions w !! other) → is_Some (predictions w' !! other))
  ∧ (∀ other, is_Some (metadata w !! other) → is_Some (metadata w' !! other))
  ∧ ∃ line,
      stdout w' = stdout w ++ [running_line image_name strategy budget; line].
Proof.
  intros name w'. subst name w'.
  destruct (run_experiment_outcome model_name messages image_name strategy
              budget w) as [[line ->]|(prediction & usage & ->)]; cbn.
  - split_and!; [done | done | done | done | by exists line].
  - split_and!; [done | | | | by eexists].
    + intros other Hother. by rewrite !lookup_insert_ne.
    + intros other Hsome. rewrite lookup_insert. by case_decide.
    + intros other Hsome. rewrite lookup_insert. by case_decide.
Qed.

(** X7: running the same experiment again replaces its files: when the
    second reply parses, both files hold what the second run produced,
    whatever the first run did. *)
Theorem run_experiment_rerun_overwrites
    (model_name : string) (messages : list Content)
    (image_name strategy : string) (budget : Z) (w : World)
    (reply : GenerateContentResponse) (text : string) (parsed : json) :
  let req := generation_request model_name messages budget in
  let name := build_output_filename image_name model_name strategy budget "" in
  generate_content (requests w ++ [req]) req = inr reply →
  response_text reply = Some text → text ≠ "" →
  json_loads text = inr parsed →
  let w1 := (run model_name messages image_name strategy budget w).2 in
  let w2 := (run model_name messages image_name strategy budget w1).2 in
  predictions w2 = <[name := json_dumps parsed]> (predictions w)
  ∧ metadata w2
    = <[name := json_dumps (metadata_json (usage_metadata reply))]> (metadata w).
Proof.
  intros req name Hreply Htext Hne Hparsed w1 w2.
  assert (requests w1 = requests w ++ [req]) as Hsent
    by apply run_experiment_sends.
  destruct (run_experiment_parsed model_name messages image_name strategy
              budget w1 reply text parsed) as [Hp Hm]; [by rewrite Hsent | done..|].
  fold name w2 in Hp, Hm. rewrite Hp, Hm. subst w1.
  destruct (run_experiment_outcome model_name messages image_name strategy
              budget w) as [[line ->]|(prediction & usage & ->)]; cbn.
  - done.
  - fold name. by rewrite !insert_insert_eq.
Qed.

End RunnerFrame.

Lemma run_experiment_rerun_overwrites_witness :
  predictions
    (run_experiment Stub.json_loads Stub.json_dumps
       (Stub.service (inr Stub.valid_reply))
       "models/gemini-2.5-flash-lite" Stub.conversation "A.jpg" "zeroshot" 0
       (run_experiment Stub.json_loads Stub.json_dumps
          (Stub.service (inr Stub.valid_reply))
          "models/gemini-2.5-flash-lite" Stub.conversation "A.jpg" "zeroshot" 0
          Stub.empty_world).2).2
  = <["A__gemini-2.5-flash-lite__zeroshot__thinking0.json" :=
        Stub.json_dumps (JObject [("a", JInt 1)])]> ∅.
Proof.
  exact (proj1 (run_experiment_rerun_overwrites Stub.json_loads Stub.json_dumps
           (Stub.service (inr Stub.valid_reply))
           "models/gemini-2.5-flash-lite" Stub.conversation "A.jpg" "zeroshot" 0
           Stub.empty_world Stub.valid_reply Stub.valid_text
           (JObject [("a", JInt 1)]) eq_refl eq_refl ltac:(done) eq_refl)).
Defined.

(** ** The two files of an experiment (lines 137-156) *)

Section RunnerDiskFrame.

Variable json_loads : string → exn + json.
Variable json_dumps : json → string.
Variable generate_content :
  list GenerateRequest → GenerateRequest → exn + GenerateContentResponse.
Variable disk : World → Disk.directory → string → string → Disk.write_result.

Local Abbreviation run_on_disk :=
  (Disk.run_experiment json_loads json_dumps generate_content disk).

(** On a disk that takes every write an experiment writes nothing or its
    two files. *)
Lemma disk_run_experiment_outcome_sound
    (model_name : string) (messages : list Content)
    (image_name strategy : string) (budget : Z) (w : World) :
  never_fails disk →
  let req := generation_request model_name messages budget in
  let name := build_output_filename image_name model_name strategy budget "" in
  let lines line := [running_line image_name strategy budget; line] in
  (∃ line,
     run_on_disk model_name messages image_name strategy budget w
     = (inr tt, after_call w req (lines line)))
  ∨ (∃ line prediction usage,
       run_on_disk model_name messages image_name strategy budget w
       = (inr tt,
          Disk.store Disk.metadata_dir name usage
            (Disk.store Disk.predictions_dir name prediction
               (after_call w req (lines line))))).
Proof.
  intros Hdisk req name lines. subst req name lines.
  unfold Disk.run_experiment, try_except, Disk.run_experiment_body,
    client_generate_content, Disk.write_prediction, Disk.write_metadata,
    Disk.write, print, lift, mbind, M_bind, after_call, running_line,
    generation_request, metadata_json.
  cbn [data_dir predictions metadata stdout requests].
  destruct (generate_content _ _) as [e|reply]; cbn.
  { left. eexists. by rewrite <- !app_assoc. }
  destruct (Py.truthy _); cbn; [|left; eexists; by rewrite <- !app_assoc].
  destruct (json_loads _) as [e|parsed]; cbn.
  { left. eexists. by rewrite <- !app_assoc. }
  rewrite Hdisk. cbn. rewrite Hdisk. cbn.
  right. eexists _, _, _. by rewrite <- !app_assoc.
Qed.

(** The metadata file is opened only once the prediction file is
    written. *)
Lemma run_experiment_covers
    (model_name : string) (messages : list Content)
    (image_name strategy : string) (budget : Z) (w : World) :
  metadata_stays_covered w
    (run_on_disk model_name messages image_name strategy budget w).2.
Proof.
  unfold metadata_stays_covered, metadata_has_prediction. intros Hsub.
  destruct (disk_run_experiment_outcome json_loads json_dumps
              generate_content disk model_name messages image_name strategy
              budget w)
    as [[line ->]|[(line & p & ->)|(line & p & u & ->)]]; cbn.
  - done.
  - rewrite dom_insert. etrans; [exact Hsub | apply union_subseteq_r].
  - rewrite !dom_insert. by apply union_mono_l.
Qed.

Lemma run_experiment_pairs_when_written
    (model_name : string) (messages : list Content)
    (image_name strategy : string) (budget : Z) (w : World) :
  never_fails disk →
  stays_paired w
    (run_on_disk model_name messages image_name strategy budget w).2.
Proof.
  intros Hdisk Hdom.
  destruct (disk_run_experiment_outcome_sound model_name messages image_name
              strategy budget w Hdisk)
    as [[line ->]|(line & p & u & ->)]; cbn.
  - done.
  - by rewrite !dom_insert_L, Hdom.
Qed.

(** X6: an experiment opens its metadata file only once its prediction
    file is written.  So, whatever the service, the codec and the disk do:
    if every metadata file had a prediction file of the same name before,
    it is so after; if the two directories held the same names before,
    the only name that can be in one and not in the other after is that
    of this experiment's prediction; and on a disk that takes every write
    they hold the same names after. *)
Theorem run_experiment_metadata_follows_prediction
    (model_name : string) (messages : list Content)
    (image_name strategy : string) (budget : Z) (w : World) :
  let name := build_output_filename image_name model_name strategy budget "" in
  let w' := (run_on_disk model_name messages image_name strategy budget w).2 in
  (metadata_has_prediction w → metadata_has_prediction w')
  ∧ (dom (predictions w) = dom (metadata w) →
     dom (metadata w') ⊆ dom (predictions w')
     ∧ dom (predictions w') ⊆ dom (metadata w') ∪ {[name]})
  ∧ (never_fails disk →
     dom (predictions w) = dom (metadata w) →
     dom (predictions w') = dom (metadata w')).
Proof.
  intros name w'. subst name w'. split_and!.
  - apply run_experiment_covers.
  - intros Hdom.
    destruct (disk_run_experiment_outcome json_loads json_dumps
                generate_content disk model_name messages image_name strategy
                budget w)
      as [[line ->]|[(line & p & ->)|(line & p & u & ->)]]; cbn.
    + rewrite Hdom. split; [done | apply union_subseteq_l].
    + rewrite dom_insert, Hdom. split; [apply union_subseteq_r|].
      apply union_least; [apply union_subseteq_r | apply union_subseteq_l].
    + rewrite !dom_insert, Hdom. split; [done | apply union_subseteq_l].
  - apply run_experiment_pairs_when_written.
Qed.

End RunnerDiskFrame.

(** The valid reply of the stub service on three disks: one that refuses
    the metadata file, one that fills up while writing it, and one that
    takes every write. *)
Lemma run_experiment_metadata_follows_prediction_witness :
  metadata_has_prediction
    (Disk.run_experiment Stub.json_loads Stub.json_dumps
       (Stub.service (inr Stub.valid_reply)) Disk.metadata_denied
       "models/gemini-2.5-flash-lite" Stub.conversation "A.jpg"
       "zeroshot" 0 Stub.empty_world).2
  ∧ dom (predictions
           (Disk.run_experiment Stub.json_loads Stub.json_dumps
              (Stub.service (inr Stub.valid_reply)) Disk.metadata_cut
              "models/gemini-2.5-flash-lite" Stub.conversation "A.jpg"
              "zeroshot" 0 Stub.empty_world).2)
    ⊆ dom (metadata
             (Disk.run_experiment Stub.json_loads Stub.json_dumps
                (Stub.service (inr Stub.valid_reply)) Disk.metadata_cut
                "models/gemini-2.5-flash-lite" Stub.conversation "A.jpg"
                "zeroshot" 0 Stub.empty_world).2)
      ∪ {["A__gemini-2.5-flash-lite__zeroshot__thinking0.json"]}
  ∧ dom (predictions
           (Disk.run_experiment Stub.json_loads Stub.json_dumps
              (Stub.service (inr Stub.valid_reply)) Disk.sound
              "models/gemini-2.5-flash-lite" Stub.conversation "A.jpg"
              "zeroshot" 0 Stub.empty_world).2)
    = dom (metadata
             (Disk.run_experiment Stub.json_loads Stub.json_dumps
                (Stub.service (inr Stub.valid_reply)) Disk.sound
                "models/gemini-2.5-flash-lite" Stub.conversation "A.jpg"
                "zeroshot" 0 Stub.empty_world).2).
Proof.
  split_and!.
  - apply (proj1 (run_experiment_metadata_follows_prediction Stub.json_loads
             Stub.json_dumps (Stub.service (inr Stub.valid_reply))
             Disk.metadata_denied "models/gemini-2.5-flash-lite"
             Stub.conversation "A.jpg" "zeroshot" 0 Stub.empty_world)).
    unfold metadata_has_prediction. simpl. reflexivity.
  - apply (proj1 (proj2 (run_experiment_metadata_follows_prediction
             Stub.json_loads Stub.json_dumps
             (Stub.service (inr Stub.valid_reply)) Disk.metadata_cut
             "models/gemini-2.5-flash-lite" Stub.conversation "A.jpg"
             "zeroshot" 0 Stub.empty_world))).
    simpl. reflexivity.
  - apply (proj2 (proj2 (run_experiment_metadata_follows_prediction
             Stub.json_loads Stub.json_dumps
             (Stub.service (inr Stub.valid_reply)) Disk.sound
             "models/gemini-2.5-flash-lite" Stub.conversation "A.jpg"
             "zeroshot" 0 Stub.empty_world))).
    + intros w dir name s. reflexivity.
    + simpl. reflexivity.
Defined.

(** ** What a whole run keeps (lines 162-238) *)

Section KeepsRules.

Context (R : relation World) `{!PreOrder R}.
Hypothesis R_print : ∀ line w, R w (print line w).2.

Lemma keeps_ret {A} (Q : A → Prop) (x : A) : Q x → keeps R Q (mret x).
Proof. intros HQ w. cbn. split; [done | by intros ? [= <-]]. Qed.

Lemma keeps_bind {A B} (Q : A → Prop) (Q' : B → Prop)
    (m : M A) (f : A → M B) :
  keeps R Q m → (∀ x, Q x → keeps R Q' (f x)) → keeps R Q' (m ≫= f).
Proof.
  intros Hm Hf w. destruct (Hm w) as [HR HQ].
  unfold mbind, M_bind. destruct (m w) as [[e|x] w1]; simpl in *.
  - split; [done | done].
  - destruct (Hf x (HQ x eq_refl) w1) as [HR' HQ'].
    split; [by etrans | done].
Qed.

Lemma keeps_weaken {A} (Q Q' : A → Prop) (m : M A) :
  (∀ x, Q x → Q' x) → keeps R Q m → keeps R Q' m.
Proof.
  intros HQ Hm w. destruct (Hm w) as [? Hpost].
  split; [done|]. intros x Hx. by apply HQ, Hpost.
Qed.

Lemma keeps_lift {A} (r : exn + A) : keeps R (λ x, r = inr x) (lift r).
Proof. intros w. cbn. done. Qed.

Lemma keeps_print (line : string) : keeps R (λ _, True) (print line).
Proof. intros w. split; [apply R_print | done]. Qed.

Lemma keeps_read_data (path : string) : keeps R (λ _, True) (read_data path).
Proof.
  intros w. unfold read_data. by destruct (data_dir w !! path).
Qed.

Lemma keeps_for_each {A} (xs : list A) (body : A → M unit) :
  (∀ x, x ∈ xs → keeps R (λ _, True) (body x)) →
  keeps R (λ _, True) (for_each xs body).
Proof.
  induction xs as [|x xs IH]; intros Hbody; simpl.
  - by apply keeps_ret.
  - apply keeps_bind with (Q := λ _, True).
    + apply Hbody. left.
    + intros _ _. apply IH. intros y Hy. apply Hbody. by right.
Qed.

End KeepsRules.

Section ScriptKeeps.

Variable json_loads : string → exn + json.
Variable json_dumps : json → string.
Variable files_upload : string → exn + FileData.
Variable generate_content :
  list GenerateRequest → GenerateRequest → exn + GenerateContentResponse.
Variable BASE_DIR : string.
Variables (images models : list string) (budgets : list Z).

Context (R : relation World) `{!PreOrder R}.
Hypothesis R_print : ∀ line w, R w (print line w).2.
Hypothesis R_run :
  ∀ model_name messages image_name strategy budget w,
    image_name ∈ images → model_name ∈ models →
    strategy ∈ ["fewshot"; "zeroshot"] → budget ∈ budgets →
    R w (run_experiment json_loads json_dumps generate_content
           model_name messages image_name strategy budget w).2.

Lemma messages_fewshot_keeps
    (image_parts : gmap string Part) (prompt_part : Part)
    (example_indices : list nat) (target_image : string) :
  keeps R (λ _, True)
    (messages_fewshot json_loads json_dumps images image_parts prompt_part
       example_indices target_image).
Proof.
  unfold messages_fewshot.
  eapply (keeps_bind R (λ _, True)).
  - generalize (@nil Content).
    induction example_indices as [|idx rest IH]; intros messages; simpl.
    + by apply (keeps_ret R).
    + eapply (keeps_bind R); [apply (keeps_lift R)|]. intros name _.
      eapply (keeps_bind R (λ _, True)).
      { unfold load_ground_truth.
        eapply (keeps_bind R); [apply (keeps_read_data R)|]. intros t _.
        eapply (keeps_weaken R); [|apply (keeps_lift R)]. done. }
      intros gt _.
      eapply (keeps_bind R); [apply (keeps_lift R)|]. intros part _.
      apply IH.
  - intros messages _.
    eapply (keeps_bind R); [apply (keeps_lift R)|]. intros part _.
    by apply (keeps_ret R).
Qed.

Lemma run_budget_keeps
    (image_parts : gmap string Part) (prompt_part : Part)
    (model_name : string) (example_indices : list nat) (target_image : string)
    (budget : Z) :
  target_image ∈ images → model_name ∈ models → budget ∈ budgets →
  keeps R (λ _, True)
    (run_budget json_loads json_dumps generate_content images image_parts
       prompt_part model_name example_indices target_image budget).
Proof.
  intros Himage Hmodel Hbudget. unfold run_budget.
  eapply (keeps_bind R); [apply messages_fewshot_keeps|]. intros fewshot _.
  eapply (keeps_bind R (λ _, True)).
  { intros w. split; [|done]. apply R_run; [done.. | set_solver | done]. }
  intros _ _. unfold messages_zeroshot.
  eapply (keeps_bind R).
  { eapply (keeps_bind R); [apply (keeps_lift R)|]. intros part _.
    by apply (keeps_ret R (λ _, True)). }
  intros zeroshot _.
  intros w. split; [|done]. apply R_run; [done.. | set_solver | done].
Qed.

Lemma upload_all_keeps (files : list string)
    (image_parts : gmap string Part) :
  keeps R (λ _, True) (upload_all files_upload files image_parts).
Proof.
  revert image_parts.
  induction files as [|image_file rest IH]; intros image_parts; simpl.
  - by apply (keeps_ret R).
  - eapply (keeps_bind R (λ _, True)); [|intros ? _; apply IH].
    unfold upload_image.
    eapply (keeps_bind R); [apply (keeps_lift R)|]. intros file _.
    eapply (keeps_bind R); [apply (keeps_print R R_print)|]. intros _ _.
    by apply (keeps_ret R).
Qed.

Lemma script_keeps (w : World) :
  R w (script json_loads json_dumps files_upload generate_content BASE_DIR
         images models budgets w).2.
Proof.
  enough (keeps R (λ _ : unit, True)
            (script json_loads json_dumps files_upload generate_content
               BASE_DIR images models budgets)) as Hkeeps
    by apply Hkeeps.
  clear w. unfold script.
  eapply (keeps_bind R (λ _, True)).
  { unfold load_prompt.
    eapply (keeps_bind R); [apply (keeps_read_data R)|]. intros t _.
    by apply (keeps_ret R). }
  intros prompt_text _.
  eapply (keeps_bind R); [apply (keeps_print R R_print)|]. intros _ _.
  eapply (keeps_bind R (λ _, True)).
  { apply upload_all_keeps. }
  intros image_parts _.
  eapply (keeps_bind R (λ _, True)).
  { apply (keeps_for_each R). intros model_name Hmodel.
    do 3 (eapply (keeps_bind R); [apply (keeps_print R R_print)|]; intros _ _).
    apply (keeps_for_each R). intros combination _.
    unfold run_combination.
    eapply (keeps_bind R); [apply (keeps_lift R)|]. intros target _.
    eapply (keeps_bind R); [apply (keeps_lift R)|].
    intros target_image Htarget.
    assert (target_image ∈ images) as Himage.
    { unfold getitem in Htarget.
      destruct (images !! target) eqn:Hlookup; [|done].
      injection Htarget as ->. by eapply list_elem_of_lookup_2. }
    eapply (keeps_bind R); [apply (keeps_print R R_print)|]. intros _ _.
    apply (keeps_for_each R). intros budget Hbudget.
    by apply run_budget_keeps. }
  intros _ _.
  do 4 (eapply (keeps_bind R); [apply (keeps_print R R_print)|]; intros _ _).
  apply (keeps_print R R_print).
Qed.

End ScriptKeeps.

Section DiskScriptKeeps.

Variable json_loads : string → exn + json.
Variable json_dumps : json → string.
Variable files_upload : string → exn + FileData.
Variable generate_content :
  list GenerateRequest → GenerateRequest → exn + GenerateContentResponse.
Variable BASE_DIR : string.
Variable disk : World → Disk.directory → string → string → Disk.write_result.
Variables (images models : list string) (budgets : list Z).

Context (R : relation World) `{!PreOrder R}.
Hypothesis R_print : ∀ line w, R w (print line w).2.
Hypothesis R_run :
  ∀ model_name messages image_name strategy budget w,
    image_name ∈ images → model_name ∈ models →
    strategy ∈ ["fewshot"; "zeroshot"] → budget ∈ budgets →
    R w (Disk.run_experiment json_loads json_dumps generate_content disk
           model_name messages image_name strategy budget w).2.

Lemma disk_run_budget_keeps
    (image_parts : gmap string Part) (prompt_part : Part)
    (model_name : string) (example_indices : list nat) (target_image : string)
    (budget : Z) :
  target_image ∈ images → model_name ∈ models → budget ∈ budgets →
  keeps R (λ _, True)
    (Disk.run_budget json_loads json_dumps generate_content disk images
       image_parts prompt_part model_name example_indices target_image budget).
Proof.
  intros Himage Hmodel Hbudget. unfold Disk.run_budget.
  eapply (keeps_bind R);
    [apply (messages_fewshot_keeps json_loads json_dumps images R)|].
  intros fewshot _.
  eapply (keeps_bind R (λ _, True)).
  { intros w. split; [|done]. apply R_run; [done.. | set_solver | done]. }
  intros _ _. unfold messages_zeroshot.
  eapply (keeps_bind R).
  { eapply (keeps_bind R); [apply (keeps_lift R)|]. intros part _.
    by apply (keeps_ret R (λ _, True)). }
  intros zeroshot _.
  intros w. split; [|done]. apply R_run; [done.. | set_solver | done].
Qed.

Lemma disk_script_keeps (w : World) :
  R w (Disk.script json_loads json_dumps files_upload generate_content
         BASE_DIR disk images models budgets w).2.
Proof.
  enough (keeps R (λ _ : unit, True)
            (Disk.script json_loads json_dumps files_upload generate_content
               BASE_DIR disk images models budgets)) as Hkeeps
    by apply Hkeeps.
  clear w. unfold Disk.script.
  eapply (keeps_bind R (λ _, True)).
  { unfold load_prompt.
    eapply (keeps_bind R); [apply (keeps_read_data R)|]. intros t _.
    by apply (keeps_ret R). }
  intros prompt_text _.
  eapply (keeps_bind R); [apply (keeps_print R R_print)|]. intros _ _.
  eapply (keeps_bind R (λ _, True)).
  { apply (upload_all_keeps files_upload R R_print). }
  intros image_parts _.
  eapply (keeps_bind R (λ _, True)).
  { apply (keeps_for_each R). intros model_name Hmodel.
    do 3 (eapply (keeps_bind R); [apply (keeps_print R R_print)|]; intros _ _).
    apply (keeps_for_each R). intros combination _.
    unfold Disk.run_combination.
    eapply (keeps_bind R); [apply (keeps_lift R)|]. intros target _.
    eapply (keeps_bind R); [apply (keeps_lift R)|].
    intros target_image Htarget.
    assert (target_image ∈ images) as Himage.
    { unfold getitem in Htarget.
      destruct (images !! target) eqn:Hlookup; [|done].
      injection Htarget as ->. by eapply list_elem_of_lookup_2. }
    eapply (keeps_bind R); [apply (keeps_print R R_print)|]. intros _ _.
    apply (keeps_for_each R). intros budget Hbudget.
    by apply disk_run_budget_keeps. }
  intros _ _.
  do 4 (eapply (keeps_bind R); [apply (keeps_print R R_print)|]; intros _ _).
  apply (keeps_print R R_print).
Qed.

End DiskScriptKeeps.

Lemma quiet_print (line : string) (w : World) : quiet w (print line w).2.
Proof. unfold quiet. cbn. split_and!; try done. by apply prefix_app_r. Qed.

#[local] Instance quiet_preorder : PreOrder quiet.
Proof.
  split.
  - intros w. by unfold quiet.
  - intros w1 w2 w3 (? & ? & ? & ? & ?) (? & ? & ? & ? & ?).
    unfold quiet. split_and!; try congruence. by etrans.
Qed.

#[local] Instance metadata_stays_covered_preorder :
  PreOrder metadata_stays_covered.
Proof.
  split.
  - by intros w H.
  - intros w1 w2 w3 H12 H23 H. by apply H23, H12.
Qed.

#[local] Instance stays_paired_preorder : PreOrder stays_paired.
Proof.
  split.
  - by intros w H.
  - intros w1 w2 w3 H12 H23 H. by apply H23, H12.
Qed.

#[local] Instance grows_preorder (images models : list string)
    (budgets : list Z) : PreOrder (grows images models budgets).
Proof.
  split.
  - intros w. unfold grows. split_and!; done.
  - intros w1 w2 w3 (Hd & Ho & Hr & Hp & Hm & Hn) (Hd' & Ho' & Hr' & Hp' & Hm' & Hn').
    unfold grows. split_and!; [congruence | by etrans | by etrans | auto | auto |].
    intros name Hname. destruct (Hn name Hname) as [<- <-]. by apply Hn'.
Qed.

(** X8: however the script ends, and whatever the service, the codec
    and the disk do on the way, if every metadata file had a prediction
    file of the same name when it started, it is so when it stops; and on
    a disk that takes every write, if the two directories held the same
    names when it started, they do when it stops. *)
Theorem script_metadata_has_prediction
    (json_loads : string → exn + json) (json_dumps : json → string)
    (files_upload : string → exn + FileData)
    (generate_content :
       list GenerateRequest → GenerateRequest → exn + GenerateContentResponse)
    (BASE_DIR : string)
    (disk : World → Disk.directory → string → string → Disk.write_result)
    (images models : list string) (budgets : list Z) (w : World) :
  let w' := (Disk.script json_loads json_dumps files_upload generate_content
               BASE_DIR disk images models budgets w).2 in
  (metadata_has_prediction w → metadata_has_prediction w')
  ∧ (never_fails disk →
     dom (predictions w) = dom (metadata w) →
     dom (predictions w') = dom (metadata w')).
Proof.
  intros w'. subst w'. split.
  - apply (disk_script_keeps json_loads json_dumps files_upload
             generate_content BASE_DIR disk images models budgets
             metadata_stays_covered).
    + by intros line w0 H.
    + intros model_name messages image_name strategy budget w0 _ _ _ _.
      apply (run_experiment_covers json_loads json_dumps generate_content
               disk model_name messages image_name strategy budget w0).
  - intros Hdisk.
    apply (disk_script_keeps json_loads json_dumps files_upload
             generate_content BASE_DIR disk images models budgets
             stays_paired).
    + by intros line w0 H.
    + intros model_name messages image_name strategy budget w0 _ _ _ _.
      by apply (run_experiment_pairs_when_written json_loads json_dumps
                  generate_content disk model_name messages image_name
                  strategy budget w0).
Qed.

(** The whole script with the stub service on a disk that refuses every
    metadata file, and on one that takes every write. *)
Lemma script_metadata_has_prediction_witness :
  metadata_has_prediction
    (Disk.main Stub.json_loads Stub.json_dumps Stub.files_upload
       (Stub.service (inr Stub.valid_reply)) "/repo" Disk.metadata_denied
       Stub.world).2
  ∧ dom (predictions
           (Disk.main Stub.json_loads Stub.json_dumps Stub.files_upload
              (Stub.service (inr Stub.valid_reply)) "/repo" Disk.sound
              Stub.world).2)
    = dom (metadata
             (Disk.main Stub.json_loads Stub.json_dumps Stub.files_upload
                (Stub.service (inr Stub.valid_reply)) "/repo" Disk.sound
                Stub.world).2).
Proof.
  split.
  - apply (proj1 (script_metadata_has_prediction Stub.json_loads
             Stub.json_dumps Stub.files_upload
             (Stub.service (inr Stub.valid_reply)) "/repo"
             Disk.metadata_denied IMAGE_FILES MODELS THINKING_BUDGETS
             Stub.world)).
    unfold metadata_has_prediction. simpl. reflexivity.
  - apply (proj2 (script_metadata_has_prediction Stub.json_loads
             Stub.json_dumps Stub.files_upload
             (Stub.service (inr Stub.valid_reply)) "/repo"
             Disk.sound IMAGE_FILES MODELS THINKING_BUDGETS Stub.world)).
    + intros w dir name s. reflexivity.
    + simpl. reflexivity.
Defined.

(** X9: however it ends, a run of the script leaves the data directory
    as it was, removes no output file, only adds to what was printed and
    to the requests sent, and creates or replaces output files only under
    names that [build_output_filename] gives to an image of the list, a
    model of the list, one of the two strategies and a budget of the list;
    every other file keeps its content. *)
Theorem script_grows
    (json_loads : string → exn + json) (json_dumps : json → string)
    (files_upload : string → exn + FileData)
    (generate_content :
       list GenerateRequest → GenerateRequest → exn + GenerateContentResponse)
    (BASE_DIR : string)
    (images models : list string) (budgets : list Z) (w : World) :
  let w' := (script json_loads json_dumps files_upload generate_content
               BASE_DIR images models budgets w).2 in
  data_dir w' = data_dir w
  ∧ stdout w `prefix_of` stdout w'
  ∧ requests w `prefix_of` requests w'
  ∧ (∀ name, is_Some (predictions w !! name) → is_Some (predictions w' !! name))
  ∧ (∀ name, is_Some (metadata w !! name) → is_Some (metadata w' !! name))
  ∧ (∀ name,
       (∀ image_name model_name strategy budget,
          image_name ∈ images → model_name ∈ models →
          strategy ∈ ["fewshot"; "zeroshot"] → budget ∈ budgets →
          name ≠ build_output_filename image_name model_name strategy budget "") →
       predictions w' !! name = predictions w !! name
       ∧ metadata w' !! name = metadata w !! name).
Proof.
  intros w'.
  assert (grows images models budgets w w') as (Hd & Ho & Hr & Hp & Hm & Hn).
  { apply (script_keeps json_loads json_dumps files_upload generate_content
             BASE_DIR images models budgets (grows images models budgets)).
    - intros line w0. unfold grows. cbn.
      split_and!; try done. by apply prefix_app_r.
    - intros model_name messages image_name strategy budget w0
        Himage Hmodel Hstrategy Hbudget.
      destruct (run_experiment_outcome json_loads json_dumps generate_content
                  model_name messages image_name strategy budget w0)
        as [[line ->]|(prediction & usage & ->)]; unfold grows; cbn.
      + split_and!; try done; by apply prefix_app_r.
      + split_and!; [done | by apply prefix_app_r | by apply prefix_app_r | | |].
        * intros name Hsome. rewrite lookup_insert. by case_decide.
        * intros name Hsome. rewrite lookup_insert. by case_decide.
        * intros name Hname.
          assert (build_output_filename image_name model_name strategy budget ""
                  ≠ name) as Hne.
          { intros <-. apply Hname. by exists image_name, model_name, strategy, budget. }
          by rewrite !lookup_insert_ne. }
  split_and!; [done..|].
  intros name Hname. apply Hn.
  intros (image_name & model_name & strategy & budget & ? & ? & ? & ? & ->).
  by eapply Hname.
Qed.

(** ** Runs that go through, and runs that stop (lines 162-238) *)

#[local] Instance anyhow_preorder : PreOrder anyhow.
Proof. by split. Qed.

Section CompletesRules.

Context (d : gmap string string) (R : relation World) `{!PreOrder R}.
Hypothesis R_print : ∀ line w, R w (print line w).2.

Lemma completes_ret {A} (Q : A → Prop) (x : A) :
  Q x → completes d R 0 Q (mret x).
Proof.
  intros HQ w Hd. exists x, w. cbn. split_and!; [done.. | lia | done].
Qed.

Lemma completes_bind {A B} (k1 k2 k : nat) (Q : A → Prop) (Q' : B → Prop)
    (m : M A) (f : A → M B) :
  completes d R k1 Q m → (∀ x, Q x → completes d R k2 Q' (f x)) →
  k = k1 + k2 → completes d R k Q' (m ≫= f).
Proof.
  intros Hm Hf -> w Hd.
  destruct (Hm w Hd) as (x & w1 & Hmw & Hd1 & HR1 & Hk1 & HQ).
  destruct (Hf x HQ w1 Hd1) as (y & w2 & Hfw & Hd2 & HR2 & Hk2 & HQ').
  exists y, w2. unfold mbind, M_bind. rewrite Hmw, Hfw.
  split_and!; [done | done | by etrans | lia | done].
Qed.

Lemma completes_then {A B} (Q : A → Prop) (Q' : B → Prop)
    (m : M A) (f : A → M B) (k : nat) :
  completes d R 0 Q m → (∀ x, Q x → completes d R k Q' (f x)) →
  completes d R k Q' (m ≫= f).
Proof. intros Hm Hf. by eapply (completes_bind 0 k). Qed.

Lemma completes_weaken {A} (Q Q' : A → Prop) (m : M A) (k : nat) :
  (∀ x, Q x → Q' x) → completes d R k Q m → completes d R k Q' m.
Proof.
  intros HQ Hm w Hd. destruct (Hm w Hd) as (x & w' & ? & ? & ? & ? & ?).
  exists x, w'. split_and!; [done..|]. by apply HQ.
Qed.

Lemma completes_lift {A} (Q : A → Prop) (r : exn + A) (x : A) :
  r = inr x → Q x → completes d R 0 Q (lift r).
Proof.
  intros -> HQ w Hd. exists x, w. cbn. split_and!; [done.. | lia | done].
Qed.

Lemma completes_print (line : string) :
  completes d R 0 (λ _, True) (print line).
Proof.
  intros w Hd. eexists tt, _. split; [reflexivity|]. cbn.
  split_and!; [done | apply R_print | lia | done].
Qed.

Lemma completes_read_data (path text : string) :
  d !! path = Some text → completes d R 0 (λ x, x = text) (read_data path).
Proof.
  intros Hfile w Hd. exists text, w. unfold read_data. rewrite Hd, Hfile.
  split_and!; [done.. | lia | done].
Qed.

Lemma completes_for_each {A} (xs : list A) (body : A → M unit) (k k' : nat) :
  (∀ x, x ∈ xs → completes d R k (λ _, True) (body x)) →
  k' = length xs * k →
  completes d R k' (λ _, True) (for_each xs body).
Proof.
  intros Hbody ->. induction xs as [|x xs IH]; simpl.
  - by apply completes_ret.
  - eapply (completes_bind k (length xs * k) _ (λ _, True)).
    + apply Hbody. left.
    + intros _ _. apply IH. intros y Hy. apply Hbody. by right.
    + done.
Qed.

End CompletesRules.

Lemma target_index_some (n : nat) (c : list nat) :
  NoDup c → (∀ i, i ∈ c → i < n) → length c < n →
  ∃ t, target_index n c = inr t ∧ t < n.
Proof.
  intros Hnd Hlt Hlen.
  pose proof (range_minus_length n c Hnd Hlt) as Hsum.
  destruct (target_index n c) as [e|t] eqn:Ht.
  - unfold target_index, getitem in Ht.
    destruct (Py.range_minus n c); simpl in *; [lia | done].
  - exists t. split; [done|]. by apply target_index_inr in Ht as [? _].
Qed.

Lemma choose_few (n k : nat) : n < k → choose n k = 0.
Proof.
  revert k. induction n as [|n IH]; intros [|k] Hlt; simpl; try lia.
  rewrite !IH by lia. done.
Qed.

Section ScriptCompletes.

Variable json_loads : string → exn + json.
Variable json_dumps : json → string.
Variable files_upload : string → exn + FileData.
Variable generate_content :
  list GenerateRequest → GenerateRequest → exn + GenerateContentResponse.
Variable BASE_DIR : string.

Context (d : gmap string string) (R : relation World) `{!PreOrder R}.
Hypothesis R_print : ∀ line w, R w (print line w).2.

Lemma upload_all_completes (files : list string)
    (image_parts : gmap string Part) :
  (∀ name, name ∈ files →
     ∃ file, files_upload ("images/" +:+ name) = inr file) →
  completes d R 0
    (λ parts, ∀ name, name ∈ files ∨ is_Some (image_parts !! name) →
                      is_Some (parts !! name))
    (upload_all files_upload files image_parts).
Proof.
  revert image_parts.
  induction files as [|image_file rest IH]; intros image_parts Hupload; simpl.
  - apply (completes_ret d R). intros name [Hin|Hsome]; [|done].
    by apply elem_of_nil in Hin.
  - destruct (Hupload image_file) as [file Hfile]; [left|].
    eapply (completes_then d R (λ _, True)).
    { unfold upload_image.
      eapply (completes_then d R); [by eapply (completes_lift d R (λ _, True))|].
      intros ? _.
      eapply (completes_then d R); [apply (completes_print d R R_print)|].
      intros _ _. by apply (completes_ret d R). }
    intros part _.
    eapply (completes_weaken d R); [|apply IH].
    + intros parts Hparts name [Hin|Hsome]; apply Hparts.
      * apply elem_of_cons in Hin as [->|Hin]; [right | by left].
        by rewrite lookup_insert_eq.
      * right. rewrite lookup_insert. by case_decide.
    + intros name Hin. apply Hupload. by right.
Qed.

Section WithData.

Variables (images : list string) (image_parts : gmap string Part).
Hypothesis uploaded :
  ∀ name, name ∈ images → is_Some (image_parts !! name).
Hypothesis ground_truth :
  ∀ name, name ∈ images →
    ∃ text gt,
      d !! ("ground_truth/" +:+ Py.replace ".jpg" ".json" name) = Some text
      ∧ json_loads text = inr gt.
Hypothesis R_run :
  ∀ model_name messages image_name strategy budget w,
    R w (run_experiment json_loads json_dumps generate_content
           model_name messages image_name strategy budget w).2.

Lemma getitem_some (idx : nat) :
  idx < length images → ∃ name, getitem images idx = inr name ∧ name ∈ images.
Proof.
  intros Hidx. destruct (lookup_lt_is_Some_2 images idx Hidx) as [name Hname].
  exists name. unfold getitem. rewrite Hname.
  split; [done|]. by eapply list_elem_of_lookup_2.
Qed.

Lemma fewshot_examples_completes (prompt_part : Part)
    (example_indices : list nat) (messages : list Content) :
  (∀ idx, idx ∈ example_indices → idx < length images) →
  completes d R 0 (λ _, True)
    (fewshot_examples json_loads json_dumps images image_parts prompt_part
       example_indices messages).
Proof.
  revert messages.
  induction example_indices as [|idx rest IH]; intros messages Hidx; simpl.
  - by apply (completes_ret d R).
  - destruct (getitem_some idx) as (name & Hname & Hin); [apply Hidx; left|].
    destruct (ground_truth name Hin) as (text & gt & Hfile & Hgt).
    destruct (uploaded name Hin) as [part Hpart].
    eapply (completes_then d R (λ x, x = name));
      [by eapply (completes_lift d R)|].
    intros ? ->.
    eapply (completes_then d R (λ x, x = gt)).
    { unfold load_ground_truth.
      eapply (completes_then d R);
        [by apply (completes_read_data d R)|].
      intros ? ->. by eapply (completes_lift d R). }
    intros ? ->.
    eapply (completes_then d R (λ x, x = part)).
    { eapply (completes_lift d R); [|done]. unfold dict_getitem. by rewrite Hpart. }
    intros ? ->. apply IH. intros i Hi. apply Hidx. by right.
Qed.

Lemma run_experiment_completes
    (model_name : string) (messages : list Content)
    (image_name strategy : string) (budget : Z) :
  completes d R 1 (λ _, True)
    (run_experiment json_loads json_dumps generate_content
       model_name messages image_name strategy budget).
Proof.
  intros w Hd.
  pose proof (R_run model_name messages image_name strategy budget w) as HR.
  destruct (run_experiment_outcome json_loads json_dumps generate_content
              model_name messages image_name strategy budget w)
    as [[line Hrun]|(prediction & usage & Hrun)];
    rewrite Hrun in HR |- *; eexists tt, _; (split; [reflexivity|]); cbn;
    rewrite length_app; cbn; split_and!; done.
Qed.

Lemma run_combination_completes
    (budgets : list Z) (prompt_part : Part)
    (model_name : string) (combination : list nat) :
  NoDup combination → (∀ i, i ∈ combination → i < length images) →
  length combination < length images →
  completes d R (length budgets * 2) (λ _, True)
    (run_combination json_loads json_dumps generate_content images budgets
       image_parts prompt_part model_name combination).
Proof.
  intros Hnd Hlt Hlen. unfold run_combination.
  destruct (target_index_some _ _ Hnd Hlt Hlen) as (t & Ht & Htlt).
  destruct (getitem_some t Htlt) as (target_image & Htarget & Hin).
  destruct (uploaded target_image Hin) as [target_part Hpart].
  eapply (completes_then d R (λ x, x = t));
    [by eapply (completes_lift d R)|].
  intros ? ->.
  eapply (completes_then d R (λ x, x = target_image));
    [by eapply (completes_lift d R)|].
  intros ? ->.
  eapply (completes_then d R); [apply (completes_print d R R_print)|].
  intros _ _.
  eapply (completes_for_each d R); [|reflexivity]. intros budget _.
  unfold run_budget.
  eapply (completes_then d R (λ _, True)).
  { unfold messages_fewshot.
    eapply (completes_then d R);
      [by apply fewshot_examples_completes|].
    intros messages _.
    eapply (completes_then d R (λ x, x = target_part)).
    { eapply (completes_lift d R); [|done]. unfold dict_getitem. by rewrite Hpart. }
    intros ? ->. by apply (completes_ret d R). }
  intros fewshot _.
  eapply (completes_bind d R 1 1); [apply run_experiment_completes | |reflexivity].
  intros _ _.
  eapply (completes_then d R (λ _, True)).
  { unfold messages_zeroshot.
    eapply (completes_then d R (λ x, x = target_part)).
    { eapply (completes_lift d R); [|done]. unfold dict_getitem. by rewrite Hpart. }
    intros ? ->. by apply (completes_ret d R). }
  intros zeroshot _. apply run_experiment_completes.
Qed.

End WithData.

(** The script goes through when the prompt is there, the uploads succeed
    and every combination goes through. *)
Lemma script_completes_with
    (images models : list string) (budgets : list Z) (prompt : string) (k : nat) :
  d !! "prompt.txt" = Some prompt →
  (∀ name, name ∈ images →
     ∃ file, files_upload ("images/" +:+ name) = inr file) →
  (∀ image_parts prompt_part model_name combination,
     (∀ name, name ∈ images → is_Some (image_parts !! name)) →
     combination ∈ Itertools.combinations (Py.range (length images)) 3 →
     completes d R k (λ _, True)
       (run_combination json_loads json_dumps generate_content images budgets
          image_parts prompt_part model_name combination)) →
  completes d R
    (length models * (choose (length images) 3 * k)) (λ _, True)
    (script json_loads json_dumps files_upload generate_content BASE_DIR
       images models budgets).
Proof.
  intros Hprompt Hupload Hcombination. unfold script, load_prompt.
  eapply (completes_then d R (λ _, True)).
  { eapply (completes_then d R);
      [by apply (completes_read_data d R)|].
    intros ? ->. by apply (completes_ret d R). }
  intros prompt_text _.
  eapply (completes_then d R); [apply (completes_print d R R_print)|].
  intros _ _.
  eapply (completes_then d R); [by apply upload_all_completes|].
  intros image_parts Hparts.
  eapply (completes_bind d R
            (length models
             * (length (Itertools.combinations (Py.range (length images)) 3) * k))
            0 _ (λ _, True)); [| |].
  { eapply (completes_for_each d R); [|reflexivity]. intros model_name _.
    do 3 (eapply (completes_then d R);
          [apply (completes_print d R R_print)|]; intros _ _).
    eapply (completes_for_each d R); [|reflexivity]. intros combination Hc.
    apply Hcombination; [|done]. intros name Hin. apply Hparts. by left. }
  { intros _ _.
    do 4 (eapply (completes_then d R);
          [apply (completes_print d R R_print)|]; intros _ _).
    apply (completes_print d R R_print). }
  rewrite combinations_length. unfold Py.range. rewrite length_seq. simpl. lia.
Qed.

End ScriptCompletes.

Section FailsRules.

Context (d : gmap string string) (R : relation World) `{!PreOrder R}.

Lemma fails_lift {A} (e : exn) : fails d R e (lift (inl e : exn + A)).
Proof. intros w Hd. by exists w. Qed.

Lemma fails_bind_l {A B} (e : exn) (m : M A) (f : A → M B) :
  fails d R e m → fails d R e (m ≫= f).
Proof.
  intros Hm w Hd. destruct (Hm w Hd) as (w' & Hmw & HR).
  exists w'. unfold mbind, M_bind. by rewrite Hmw.
Qed.

Lemma fails_bind_r {A B} (e : exn) (k : nat) (Q : A → Prop)
    (m : M A) (f : A → M B) :
  completes d R k Q m → (∀ x, Q x → fails d R e (f x)) →
  fails d R e (m ≫= f).
Proof.
  intros Hm Hf w Hd.
  destruct (Hm w Hd) as (x & w1 & Hmw & Hd1 & HR1 & _ & HQ).
  destruct (Hf x HQ w1 Hd1) as (w2 & Hfw & HR2).
  exists w2. unfold mbind, M_bind. rewrite Hmw, Hfw. split; [done | by etrans].
Qed.

Lemma fails_for_each_head {A} (e : exn) (x : A) (xs : list A)
    (body : A → M unit) :
  fails d R e (body x) → fails d R e (for_each (x :: xs) body).
Proof. intros Hx. simpl. by apply fails_bind_l. Qed.

End FailsRules.

Section ScriptFails.

Variable json_loads : string → exn + json.
Variable json_dumps : json → string.
Variable files_upload : string → exn + FileData.
Variable generate_content :
  list GenerateRequest → GenerateRequest → exn + GenerateContentResponse.
Variable BASE_DIR : string.

Context (d : gmap string string).

Lemma load_prompt_completes (prompt : string) :
  d !! "prompt.txt" = Some prompt →
  completes d quiet 0 (λ _, True) load_prompt.
Proof.
  intros Hprompt. unfold load_prompt.
  eapply (completes_then d quiet);
    [by apply (completes_read_data d quiet)|].
  intros ? ->. by apply (completes_ret d quiet).
Qed.

Lemma upload_all_fails (files : list string) (image_parts : gmap string Part)
    (name : string) (e : exn) :
  name ∈ files → files_upload ("images/" +:+ name) = inl e →
  ∃ e' name',
    name' ∈ files ∧ files_upload ("images/" +:+ name') = inl e'
    ∧ fails d quiet e' (upload_all files_upload files image_parts).
Proof.
  intros Hin He. revert image_parts.
  induction files as [|image_file rest IH]; intros image_parts;
    [by apply elem_of_nil in Hin|].
  simpl. destruct (files_upload ("images/" +:+ image_file)) as [e'|file] eqn:Hfile.
  - exists e', image_file. split_and!; [left | done |].
    apply (fails_bind_l d quiet). unfold upload_image.
    apply (fails_bind_l d quiet). rewrite Hfile. apply (fails_lift d quiet).
  - apply elem_of_cons in Hin as [->|Hin]; [congruence|].
    destruct (IH Hin (<[image_file := Part_file_data file]> image_parts))
      as (e' & name' & Hin' & He' & Hrest).
    exists e', name'. split_and!; [by right | done |].
    eapply (fails_bind_r d quiet e' 0
              (λ part, part = Part_file_data file)).
    + unfold upload_image.
      eapply (completes_then d quiet (λ x, x = file));
        [by eapply (completes_lift d quiet)|].
      intros ? ->.
      eapply (completes_then d quiet);
        [apply (completes_print d quiet quiet_print)|].
      intros _ _. apply (completes_ret d quiet). by destruct file.
    + by intros ? ->.
Qed.

End ScriptFails.

(** X10: with the prompt in place, every upload succeeding, the ground
    truth of every image present and well-formed, and at least four
    images, the script runs to its end whatever the service answers, and
    sends two requests per model, combination and budget. *)
Theorem script_runs_to_the_end
    (json_loads : string → exn + json) (json_dumps : json → string)
    (files_upload : string → exn + FileData)
    (generate_content :
       list GenerateRequest → GenerateRequest → exn + GenerateContentResponse)
    (BASE_DIR : string)
    (images models : list string) (budgets : list Z) (w : World)
    (prompt : string) :
  data_dir w !! "prompt.txt" = Some prompt →
  (∀ name, name ∈ images →
     ∃ file, files_upload ("images/" +:+ name) = inr file) →
  (∀ name, name ∈ images →
     ∃ text gt,
       data_dir w !! ("ground_truth/" +:+ Py.replace ".jpg" ".json" name)
       = Some text
       ∧ json_loads text = inr gt) →
  4 ≤ length images →
  let run := script json_loads json_dumps files_upload generate_content
               BASE_DIR images models budgets w in
  run.1 = inr tt
  ∧ length (requests run.2)
    = length (requests w)
      + length models * (choose (length images) 3 * (length budgets * 2)).
Proof.
  intros Hprompt Hupload Hgt Hn run.
  destruct (script_completes_with json_loads json_dumps files_upload
              generate_content BASE_DIR (data_dir w) anyhow (λ _ _, I)
              images models budgets prompt (length budgets * 2)
              Hprompt Hupload) with w as (x & w' & Hrun & _ & _ & Hcount & _).
  - intros image_parts prompt_part model_name combination Hparts Hc.
    apply elem_of_combinations in Hc as [Hsub Hlen].
    apply run_combination_completes; try done.
    + eapply sublist_NoDup; [apply NoDup_seq | exact Hsub].
    + intros i Hi. eapply elem_of_sublist in Hi; [|done].
      apply elem_of_seq in Hi. lia.
    + lia.
  - done.
  - subst run. rewrite Hrun. by destruct x.
Qed.

Lemma script_runs_to_the_end_witness :
  (main Stub.json_loads Stub.json_dumps Stub.files_upload
     (Stub.service (inr Stub.malformed_reply)) "/repo" Stub.world).1 = inr tt
  ∧ length (requests
              (main Stub.json_loads Stub.json_dumps Stub.files_upload
                 (Stub.service (inr Stub.malformed_reply)) "/repo"
                 Stub.world).2)
    = 16.
Proof.
  apply (script_runs_to_the_end Stub.json_loads Stub.json_dumps
           Stub.files_upload (Stub.service (inr Stub.malformed_reply)) "/repo"
           IMAGE_FILES MODELS THINKING_BUDGETS Stub.world "Extract the table.").
  - reflexivity.
  - intros name _. by eexists.
  - intros name Hin. unfold IMAGE_FILES in Hin. set_unfold.
    destruct Hin as [->|[->|[->|[->|[]]]]]; eexists _, _; split; reflexivity.
  - simpl. lia.
Defined.

(** X11: with fewer than three images there is nothing to combine: given
    the prompt and successful uploads the script runs to its end, sends no
    request and writes no file; it only prints. *)
Theorem script_few_images
    (json_loads : string → exn + json) (json_dumps : json → string)
    (files_upload : string → exn + FileData)
    (generate_content :
       list GenerateRequest → GenerateRequest → exn + GenerateContentResponse)
    (BASE_DIR : string)
    (images models : list string) (budgets : list Z) (w : World)
    (prompt : string) :
  data_dir w !! "prompt.txt" = Some prompt →
  (∀ name, name ∈ images →
     ∃ file, files_upload ("images/" +:+ name) = inr file) →
  length images < 3 →
  ∃ w', script json_loads json_dumps files_upload generate_content
          BASE_DIR images models budgets w = (inr tt, w')
        ∧ requests w' = requests w
        ∧ predictions w' = predictions w ∧ metadata w' = metadata w.
Proof.
  intros Hprompt Hupload Hn.
  destruct (script_completes_with json_loads json_dumps files_upload
              generate_content BASE_DIR (data_dir w) quiet quiet_print
              images models budgets prompt 0
              Hprompt Hupload) with w as (x & w' & Hrun & _ & Hquiet & _).
  - intros image_parts prompt_part model_name combination _ Hc.
    apply elem_of_combinations in Hc as [Hsub Hlen].
    apply sublist_length in Hsub. unfold Py.range in Hsub.
    rewrite length_seq in Hsub. lia.
  - done.
  - exists w'. destruct x, Hquiet as (_ & ? & ? & ? & _). done.
Qed.

Lemma script_few_images_witness :
  ∃ w', script Stub.json_loads Stub.json_dumps Stub.files_upload
          (Stub.service (inr Stub.valid_reply)) "/repo"
          ["NL-UtHUA_A376076_000033_l.jpg"; "NL-UtHUA_A376076_000033_r.jpg"]
          MODELS THINKING_BUDGETS Stub.world
        = (inr tt, w')
        ∧ requests w' = [] ∧ predictions w' = ∅ ∧ metadata w' = ∅.
Proof.
  apply (script_few_images Stub.json_loads Stub.json_dumps Stub.files_upload
           (Stub.service (inr Stub.valid_reply)) "/repo"
           ["NL-UtHUA_A376076_000033_l.jpg"; "NL-UtHUA_A376076_000033_r.jpg"]
           MODELS THINKING_BUDGETS Stub.world "Extract the table.").
  - reflexivity.
  - intros name _. by eexists.
  - simpl. lia.
Defined.

(** X12: with exactly three images and at least one model, the one
    combination leaves no image over for the target: given the prompt and
    successful uploads the script stops with an index error raised outside
    any [try], having sent no request and written no file. *)
Theorem script_three_images
    (json_loads : string → exn + json) (json_dumps : json → string)
    (files_upload : string → exn + FileData)
    (generate_content :
       list GenerateRequest → GenerateRequest → exn + GenerateContentResponse)
    (BASE_DIR : string)
    (images models : list string) (budgets : list Z) (w : World)
    (prompt : string) :
  data_dir w !! "prompt.txt" = Some prompt →
  (∀ name, name ∈ images →
     ∃ file, files_upload ("images/" +:+ name) = inr file) →
  length images = 3 → models ≠ [] →
  ∃ w', script json_loads json_dumps files_upload generate_content
          BASE_DIR images models budgets w = (inl IndexError, w')
        ∧ requests w' = requests w
        ∧ predictions w' = predictions w ∧ metadata w' = metadata w.
Proof.
  intros Hprompt Hupload Hn Hmodels.
  assert (fails (data_dir w) quiet IndexError
            (script json_loads json_dumps files_upload generate_content
               BASE_DIR images models budgets)) as Hfails.
  { unfold script.
    eapply (fails_bind_r _ quiet _ 0); [by eapply load_prompt_completes|].
    intros prompt_text _.
    eapply (fails_bind_r _ quiet _ 0);
      [apply (completes_print _ quiet quiet_print)|].
    intros _ _.
    eapply (fails_bind_r _ quiet _ 0);
      [by apply (upload_all_completes files_upload _ quiet quiet_print)|].
    intros image_parts _.
    apply (fails_bind_l _ quiet).
    destruct models as [|model_name rest]; [done|].
    apply (fails_for_each_head _ quiet).
    do 3 (eapply (fails_bind_r _ quiet _ 0);
          [apply (completes_print _ quiet quiet_print)|]; intros _ _).
    rewrite Hn.
    change (Itertools.combinations (Py.range 3) 3) with [[0; 1; 2]].
    apply (fails_for_each_head _ quiet). unfold run_combination.
    apply (fails_bind_l _ quiet). rewrite Hn.
    apply (fails_lift _ quiet). }
  destruct (Hfails w eq_refl) as (w' & Hrun & _ & ? & ? & ? & _).
  by exists w'.
Qed.

Lemma script_three_images_witness :
  ∃ w', script Stub.json_loads Stub.json_dumps Stub.files_upload
          (Stub.service (inr Stub.valid_reply)) "/repo"
          ["NL-UtHUA_A376076_000033_l.jpg"; "NL-UtHUA_A376076_000033_r.jpg";
           "NL-UtHUA_A376079_000005_l.jpg"]
          MODELS THINKING_BUDGETS Stub.world
        = (inl IndexError, w')
        ∧ requests w' = [] ∧ predictions w' = ∅ ∧ metadata w' = ∅.
Proof.
  apply (script_three_images Stub.json_loads Stub.json_dumps Stub.files_upload
           (Stub.service (inr Stub.valid_reply)) "/repo"
           ["NL-UtHUA_A376076_000033_l.jpg"; "NL-UtHUA_A376076_000033_r.jpg";
            "NL-UtHUA_A376079_000005_l.jpg"]
           MODELS THINKING_BUDGETS Stub.world "Extract the table.").
  - reflexivity.
  - intros name _. by eexists.
  - reflexivity.
  - done.
Defined.

(** X13: an upload that fails stops the script: given the prompt, if the
    upload of some image of the list raises, the script raises the
    exception of a failed upload, outside any [try], having sent no
    request and written no file. *)
Theorem script_upload_failure
    (json_loads : string → exn + json) (json_dumps : json → string)
    (files_upload : string → exn + FileData)
    (generate_content :
       list GenerateRequest → GenerateRequest → exn + GenerateContentResponse)
    (BASE_DIR : string)
    (images models : list string) (budgets : list Z) (w : World)
    (prompt name : string) (e : exn) :
  data_dir w !! "prompt.txt" = Some prompt →
  name ∈ images → files_upload ("images/" +:+ name) = inl e →
  ∃ e' name' w',
    name' ∈ images ∧ files_upload ("images/" +:+ name') = inl e'
    ∧ script json_loads json_dumps files_upload generate_content
        BASE_DIR images models budgets w = (inl e', w')
    ∧ requests w' = requests w
    ∧ predictions w' = predictions w ∧ metadata w' = metadata w.
Proof.
  intros Hprompt Hin He.
  destruct (upload_all_fails files_upload (data_dir w) images ∅ name e Hin He)
    as (e' & name' & Hin' & He' & Hupload).
  assert (fails (data_dir w) quiet e'
            (script json_loads json_dumps files_upload generate_content
               BASE_DIR images models budgets)) as Hfails.
  { unfold script.
    eapply (fails_bind_r _ quiet _ 0); [by eapply load_prompt_completes|].
    intros prompt_text _.
    eapply (fails_bind_r _ quiet _ 0);
      [apply (completes_print _ quiet quiet_print)|].
    intros _ _. by apply (fails_bind_l _ quiet). }
  destruct (Hfails w eq_refl) as (w' & Hrun & _ & ? & ? & ? & _).
  by exists e', name', w'.
Qed.

Lemma script_upload_failure_witness :
  ∃ e' name' w',
    name' ∈ IMAGE_FILES
    ∧ (λ _ : string, inl (Exn "ClientError" "403 PERMISSION_DENIED")
         : exn + FileData) ("images/" +:+ name') = inl e'
    ∧ main Stub.json_loads Stub.json_dumps
        (λ _, inl (Exn "ClientError" "403 PERMISSION_DENIED"))
        (Stub.service (inr Stub.valid_reply)) "/repo" Stub.world
      = (inl e', w')
    ∧ requests w' = [] ∧ predictions w' = ∅ ∧ metadata w' = ∅.
Proof.
  apply (script_upload_failure Stub.json_loads Stub.json_dumps
           (λ _, inl (Exn "ClientError" "403 PERMISSION_DENIED"))
           (Stub.service (inr Stub.valid_reply)) "/repo"
           IMAGE_FILES MODELS THINKING_BUDGETS Stub.world
           "Extract the table." "NL-UtHUA_A376076_000033_l.jpg"
           (Exn "ClientError" "403 PERMISSION_DENIED")).
  - reflexivity.
  - left.
  - reflexivity.
Defined.

(** X14: without [prompt.txt] the script stops at its first statement
    with a file-not-found error: nothing is printed, uploaded, sent or
    written. *)
Theorem script_missing_prompt
    (json_loads : string → exn + json) (json_dumps : json → string)
    (files_upload : string → exn + FileData)
    (generate_content :
       list GenerateRequest → GenerateRequest → exn + GenerateContentResponse)
    (BASE_DIR : string)
    (images models : list string) (budgets : list Z) (w : World) :
  data_dir w !! "prompt.txt" = None →
  script json_loads json_dumps files_upload generate_content
    BASE_DIR images models budgets w
  = (inl (FileNotFoundError "prompt.txt"), w).
Proof.
  intros Hprompt. unfold script. unfold mbind at 1. unfold M_bind.
  by rewrite load_prompt_missing.
Qed.

Lemma script_missing_prompt_witness :
  main Stub.json_loads Stub.json_dumps Stub.files_upload
    (Stub.service (inr Stub.valid_reply)) "/repo" Stub.empty_world
  = (inl (FileNotFoundError "prompt.txt"), Stub.empty_world).
Proof.
  apply (script_missing_prompt Stub.json_loads Stub.json_dumps
           Stub.files_upload (Stub.service (inr Stub.valid_reply)) "/repo"
           IMAGE_FILES MODELS THINKING_BUDGETS Stub.empty_world).
  reflexivity.
Defined.

(** ** Loading the ground truth (lines 77-81) and building without it *)

(** X15: the ground truth of an image [base.jpg] (the base name holding no
    dot) is read from [ground_truth/base.json]: the parsed contents if the
    file is there, the codec's exception if it does not parse, a
    file-not-found error if it is missing; the world is left as it was.
    The ground truth of a name without any dot is looked up under that
    very name. *)
Theorem load_ground_truth_reads
    (json_loads : string → exn + json) (w : World) (base : string) :
  free_of "." base →
  load_ground_truth json_loads (base +:+ ".jpg") w
  = match data_dir w !! ("ground_truth/" +:+ base +:+ ".json") with
    | Some text => (json_loads text, w)
    | None =>
        (inl (FileNotFoundError ("ground_truth/" +:+ base +:+ ".json")), w)
    end
  ∧ load_ground_truth json_loads base w
    = match data_dir w !! ("ground_truth/" +:+ base) with
      | Some text => (json_loads text, w)
      | None => (inl (FileNotFoundError ("ground_truth/" +:+ base)), w)
      end.
Proof.
  intros Hbase. unfold load_ground_truth, mbind, M_bind, read_data, lift.
  rewrite (replace_app_free "." "jpg" ".json" base ".jpg" Hbase).
  change (Py.replace ".jpg" ".json" ".jpg") with ".json".
  rewrite (replace_absent "." "jpg" ".json" base Hbase).
  split.
  - by destruct (data_dir w !! _).
  - by destruct (data_dir w !! _).
Qed.

Lemma load_ground_truth_reads_witness :
  load_ground_truth Stub.json_loads "NL-UtHUA_A376076_000033_l.jpg" Stub.world
  = (inr (JArray [JInt 33; JInt 1]), Stub.world).
Proof.
  refine (proj1 (load_ground_truth_reads Stub.json_loads Stub.world
                   "NL-UtHUA_A376076_000033_l" _)).
  compute. intuition discriminate.
Defined.

Lemma fewshot_examples_missing
    (json_loads : string → exn + json) (json_dumps : json → string)
    (images : list string) (image_parts : gmap string Part) (prompt_part : Part)
    (example_indices : list nat) (messages : list Content) (w : World)
    (idx : nat) (name : string) :
  idx ∈ example_indices → images !! idx = Some name →
  data_dir w !! ("ground_truth/" +:+ Py.replace ".jpg" ".json" name) = None →
  ∃ e, fewshot_examples json_loads json_dumps images image_parts prompt_part
         example_indices messages w = (inl e, w).
Proof.
  intros Hin Hname Hfile. revert messages.
  induction example_indices as [|idx0 rest IH]; intros messages;
    [by apply elem_of_nil in Hin|].
  cbn [fewshot_examples]. unfold load_ground_truth.
  unfold mbind, M_bind, lift, read_data, getitem.
  destruct (images !! idx0) as [name0|] eqn:Hname0; [|by eexists].
  destruct (data_dir w !! ("ground_truth/" +:+ Py.replace ".jpg" ".json" name0))
    as [text|] eqn:Hfile0; [|by eexists].
  destruct (json_loads text) as [e|gt]; [by eexists|].
  destruct (dict_getitem image_parts name0) as [e|part]; [by eexists|].
  apply elem_of_cons in Hin as [->|Hin]; [congruence|].
  by apply IH.
Qed.

(** X16: a missing ground truth file is not a failed experiment but the
    end of the run: if the ground truth of any example image is missing,
    [run_budget] raises, outside the [try] of [run_experiment], before
    anything is sent, printed or written. *)
Theorem run_budget_missing_ground_truth
    (json_loads : string → exn + json) (json_dumps : json → string)
    (generate_content :
       list GenerateRequest → GenerateRequest → exn + GenerateContentResponse)
    (images : list string) (image_parts : gmap string Part) (prompt_part : Part)
    (model_name : string) (example_indices : list nat) (target_image : string)
    (budget : Z) (w : World) (idx : nat) (name : string) :
  idx ∈ example_indices → images !! idx = Some name →
  data_dir w !! ("ground_truth/" +:+ Py.replace ".jpg" ".json" name) = None →
  ∃ e, run_budget json_loads json_dumps generate_content images image_parts
         prompt_part model_name example_indices target_image budget w
       = (inl e, w).
Proof.
  intros Hin Hname Hfile.
  destruct (fewshot_examples_missing json_loads json_dumps images image_parts
              prompt_part example_indices [] w idx name Hin Hname Hfile)
    as [e He].
  exists e. unfold run_budget, messages_fewshot.
  unfold mbind at 1. unfold M_bind. unfold mbind at 1. unfold M_bind.
  by rewrite He.
Qed.

Lemma run_budget_missing_ground_truth_witness :
  ∃ e, run_budget Stub.json_loads Stub.json_dumps
         (Stub.service (inr Stub.valid_reply)) IMAGE_FILES Stub.image_parts
         Stub.prompt_part "models/gemini-2.5-flash-lite" [0; 1; 2]
         "NL-UtHUA_A376079_000005_r.jpg" 0 Stub.empty_world
       = (inl e, Stub.empty_world).
Proof.
  apply (run_budget_missing_ground_truth Stub.json_loads Stub.json_dumps
           (Stub.service (inr Stub.valid_reply)) IMAGE_FILES Stub.image_parts
           Stub.prompt_part "models/gemini-2.5-flash-lite" [0; 1; 2]
           "NL-UtHUA_A376079_000005_r.jpg" 0 Stub.empty_world
           1 "NL-UtHUA_A376076_000033_r.jpg").
  - set_solver.
  - reflexivity.
  - reflexivity.
Defined.

(** ** Uploading the images (lines 68-74 and 168-171) *)

(** X17: when every upload succeeds, the upload loop prints one line per
    image, in the order of the list, changes nothing else, and returns the
    parts it was given with, for every image of the list, the part made of
    the handle the service returned; entries under other names are as
    before. *)
Theorem upload_all_registers
    (files_upload : string → exn + FileData)
    (files : list string) (image_parts : gmap string Part) (w : World) :
  (∀ name, name ∈ files →
     ∃ file, files_upload ("images/" +:+ name) = inr file) →
  ∃ parts,
    upload_all files_upload files image_parts w
    = (inr parts,
       {| data_dir := data_dir w; predictions := predictions w;
          metadata := metadata w;
          stdout := stdout w ++ ((λ name, "  Uploaded: " +:+ name) <$> files);
          requests := requests w |})
    ∧ (∀ name, name ∈ files →
         ∃ file, files_upload ("images/" +:+ name) = inr file
                 ∧ parts !! name = Some (Part_file_data file))
    ∧ (∀ name, name ∉ files → parts !! name = image_parts !! name).
Proof.
  revert image_parts w.
  induction files as [|image_file rest IH]; intros image_parts w Hupload.
  - exists image_parts. cbn. rewrite app_nil_r. destruct w.
    split_and!; [done | | done]. intros name Hin. by apply elem_of_nil in Hin.
  - destruct (Hupload image_file) as [file Hfile]; [left|].
    destruct (IH (<[image_file := Part_file_data file]> image_parts)
                (print ("  Uploaded: " +:+ image_file) w).2)
      as (parts & Hrun & Hin_rest & Hout_rest).
    { intros name Hin. apply Hupload. by right. }
    exists parts. split_and!.
    + cbn [upload_all]. unfold upload_image.
      unfold mbind at 1. unfold M_bind. unfold mbind at 1. unfold M_bind.
      unfold lift. rewrite Hfile. unfold mbind at 1. unfold M_bind.
      cbn [print mret M_ret fst snd]. destruct file as [mime uri].
      cbn [mime_type file_uri]. cbn [print snd] in Hrun. rewrite Hrun.
      cbn [data_dir predictions metadata stdout requests fmap list_fmap].
      by rewrite <- app_assoc.
    + intros name Hin. destruct (decide (name ∈ rest)) as [Hrest|Hrest].
      * by apply Hin_rest.
      * apply elem_of_cons in Hin as [->|Hin]; [|done].
        exists file. split; [done|].
        rewrite (Hout_rest _ Hrest). by rewrite lookup_insert_eq.
    + intros name Hout. apply not_elem_of_cons in Hout as [Hne Hrest].
      rewrite (Hout_rest _ Hrest). by rewrite lookup_insert_ne.
Qed.

Lemma upload_all_registers_witness :
  ∃ parts,
    upload_all Stub.files_upload IMAGE_FILES ∅ Stub.world
    = (inr parts,
       {| data_dir := Stub.data; predictions := ∅; metadata := ∅;
          stdout := [ "  Uploaded: NL-UtHUA_A376076_000033_l.jpg";
                      "  Uploaded: NL-UtHUA_A376076_000033_r.jpg";
                      "  Uploaded: NL-UtHUA_A376079_000005_l.jpg";
                      "  Uploaded: NL-UtHUA_A376079_000005_r.jpg" ];
          requests := [] |})
    ∧ (∀ name, name ∈ IMAGE_FILES →
         ∃ file, Stub.files_upload ("images/" +:+ name) = inr file
                 ∧ parts !! name = Some (Part_file_data file))
    ∧ (∀ name, name ∉ IMAGE_FILES → parts !! name = (∅ : gmap string Part) !! name).
Proof.
  apply (upload_all_registers Stub.files_upload IMAGE_FILES ∅ Stub.world).
  intros name _. by eexists.
Defined.

(** ** The two harnesses on a disk that takes every write *)

Lemma bind_ext {A B} (m m' : M A) (f f' : A → M B) :
  (∀ w, m w = m' w) → (∀ x w, f x w = f' x w) →
  ∀ w, (m ≫= f) w = (m' ≫= f') w.
Proof.
  intros Hm Hf w. unfold mbind, M_bind. rewrite Hm.
  destruct (m' w) as [[e|x] w1]; [done | apply Hf].
Qed.

Lemma for_each_ext {A} (xs : list A) (body body' : A → M unit) :
  (∀ x w, body x w = body' x w) →
  ∀ w, for_each xs body w = for_each xs body' w.
Proof.
  intros Hbody. induction xs as [|x xs IH]; intros w; simpl; [done|].
  apply bind_ext; [apply Hbody | intros _; apply IH].
Qed.

Section DiskSound.

Variable json_loads : string → exn + json.
Variable json_dumps : json → string.
Variable files_upload : string → exn + FileData.
Variable generate_content :
  list GenerateRequest → GenerateRequest → exn + GenerateContentResponse.
Variable BASE_DIR : string.
Variable disk : World → Disk.directory → string → string → Disk.write_result.
Hypothesis disk_takes_all : never_fails disk.

(** When no write fails, the runner of [Disk] is the runner of the
    harness. *)
Lemma disk_run_experiment_sound
    (model_name : string) (messages : list Content)
    (image_name strategy : string) (budget : Z) (w : World) :
  Disk.run_experiment json_loads json_dumps generate_content disk
    model_name messages image_name strategy budget w
  = run_experiment json_loads json_dumps generate_content
      model_name messages image_name strategy budget w.
Proof.
  unfold Disk.run_experiment, run_experiment, try_except,
    Disk.run_experiment_body, run_experiment_body, client_generate_content,
    Disk.write_prediction, Disk.write_metadata, Disk.write, write_prediction,
    write_metadata, print, lift, mbind, M_bind.
  cbn [data_dir predictions metadata stdout requests].
  destruct (generate_content _ _) as [e|reply]; [done|].
  destruct (Py.truthy _); [|done].
  destruct (json_loads _) as [e|parsed]; [done|].
  rewrite disk_takes_all. cbn. by rewrite disk_takes_all.
Qed.

(** And so is the whole script. *)
Lemma disk_script_sound
    (images models : list string) (budgets : list Z) (w : World) :
  Disk.script json_loads json_dumps files_upload generate_content BASE_DIR
    disk images models budgets w
  = script json_loads json_dumps files_upload generate_content BASE_DIR
      images models budgets w.
Proof.
  unfold Disk.script, script.
  apply bind_ext; [done|]. intros prompt_text.
  apply bind_ext; [done|]. intros _.
  apply bind_ext; [done|]. intros image_parts.
  apply bind_ext; [|done].
  apply for_each_ext. intros model_name.
  do 3 (apply bind_ext; [done|]; intros _).
  apply for_each_ext. intros combination.
  unfold Disk.run_combination, run_combination.
  apply bind_ext; [done|]. intros target.
  apply bind_ext; [done|]. intros target_image.
  apply bind_ext; [done|]. intros _.
  apply for_each_ext. intros budget.
  unfold Disk.run_budget, run_budget.
  apply bind_ext; [done|]. intros fewshot.
  apply bind_ext; [apply disk_run_experiment_sound|]. intros _.
  apply bind_ext; [done|]. intros zeroshot.
  apply disk_run_experiment_sound.
Qed.

End DiskSound.

(** [Disk.sound] is such a disk. *)
Example disk_sound_never_fails : never_fails Disk.sound.
Proof. by intros w dir name s. Qed.
